(** * The AWS Batch operator: submit, monitor, cancel

    A shallow embedding of [BatchOperator] from
    [airflow/providers/amazon/aws/operators/batch.py].

    The operator is a Python object whose methods talk to three
    collaborators: the boto3 Batch client reached through the hook
    ([self.hook.client]), the hook's own helpers ([self.hook.*]) and an
    optional caller-supplied waiters object ([self.waiters]).  Each method is
    embedded as a computation that threads the operator's fields and the
    state of the remote side, may raise a Python exception, and records the
    calls it makes on its collaborators and the records it logs. *)

From stdpp Require Import gmap strings list.

Set Warnings "-register-all".
Set Default Proof Using "Type".

(** ** Python values *)

(** The values that flow through the operator: job identifiers, the
    dictionaries handed to and returned by boto3, and log arguments. *)
Inductive pyval : Type :=
| VNone
| VBool (b : bool)
| VInt (n : Z)
| VStr (s : string)
| VList (l : list pyval)
| VDict (d : gmap string pyval).

Abbreviation dict := (gmap string pyval).

(** Python truth value testing, as used by [if x:] and [not x]. *)
Definition truthy (v : pyval) : bool :=
  match v with
  | VNone => false
  | VBool b => b
  | VInt n => negb (n =? 0)%Z
  | VStr s => negb (String.eqb s "")
  | VList l => match l with [] => false | _ :: _ => true end
  | VDict d => negb (size d =? 0)
  end.

(** [x or {}] for an optional dict argument of [__init__]. *)
Definition or_empty (o : option dict) : dict :=
  match o with
  | Some d => if truthy (VDict d) then d else ∅
  | None => ∅
  end.

(** ** Exceptions and outcomes *)

(** Subclasses of Python's [Exception].  [AirflowException] is built either
    from a message or, in [submit_job], from the exception it wraps.
    [JobFailedError] is the failure of the final classification check;
    [OtherException] stands for any other class a collaborator may raise
    (botocore client errors, waiter errors, timeouts). *)
Inductive exn : Type :=
| KeyError (key : string)
| TypeError (msg : string)
| JobFailedError (status : option pyval) (job : dict)
| OtherException (cls msg : string)
| AirflowException (arg : exn_arg)
with exn_arg : Type :=
| Msg (s : string)
| Cause (e : exn).

Inductive outcome (A : Type) : Type :=
| Returned (a : A)
| Raised (e : exn).
Arguments Returned {A} a.
Arguments Raised {A} e.

Definition is_KeyError (e : exn) : bool :=
  match e with KeyError _ => true | _ => false end.

(** [d[k]]: subscripting a dict raises [KeyError] on a missing key. *)
Definition getitem (d : dict) (k : string) : outcome pyval :=
  match d !! k with
  | Some v => Returned v
  | None => Raised (KeyError k)
  end.

(** The service-reported status that counts as success. *)
Definition is_succeeded (status : option pyval) : bool :=
  match status with
  | Some (VStr s) => String.eqb s "SUCCEEDED"
  | _ => false
  end.

(** ** Observable events *)

Inductive level : Type := INFO | WARNING | ERROR.

Inductive link : Type :=
| BatchJobDetailsLink
| BatchJobDefinitionLink
| BatchJobQueueLink
| CloudWatchEventsLink.

(** Keyword arguments of [hook.client.submit_job]. *)
Record submit_kwargs : Type := {
  jobName : string;
  jobQueue : string;
  jobDefinition : string;
  arrayProperties : dict;
  parameters_kw : dict;
  containerOverrides : dict;
  tags_kw : dict
}.

(** What the operator does that is visible from outside: the log records it
    emits and the calls it makes on its collaborators, in program order. *)
Inductive event : Type :=
| Log (lvl : level) (fmt : string) (args : list pyval)
| ClientSubmitJob (kw : submit_kwargs)
| ClientTerminateJob (jobId : pyval) (reason : string)
| HookGetJobDescription (jid : pyval)
| HookWaitForJob (jid : pyval)
| WaitersWaitForJob (jid : pyval)
| HookGetJobAwslogsInfo (jid : pyval)
| HookCheckJobSuccess (jid : pyval)
| Persist (l : link) (kw : dict).

Definition is_submit_call (ev : event) : bool :=
  match ev with ClientSubmitJob _ => true | _ => false end.

Definition is_terminate_call (ev : event) : bool :=
  match ev with ClientTerminateJob _ _ => true | _ => false end.



(** Calls made by [monitor_job] only. *)
Definition is_monitor_call (ev : event) : bool :=
  match ev with
  | HookGetJobDescription _ | HookWaitForJob _ | WaitersWaitForJob _
  | HookGetJobAwslogsInfo _ | HookCheckJobSuccess _ => true
  | Persist BatchJobDefinitionLink _ | Persist BatchJobQueueLink _
  | Persist CloudWatchEventsLink _ => true
  | _ => false
  end.

Definition count (p : event → bool) (evs : list event) : nat :=
  length (filter (λ ev, p ev = true) evs).

(** ** The operator object *)

(** Arguments [__init__] forwards to [BatchClientHook]. *)
Record hook_config : Type := {
  max_retries : option Z;
  status_retries : option Z;
  aws_conn_id : option string;
  region_name : option string
}.

(** ** Collaborators *)

(** The interface the operator is written against.  [Waiters] is the type of
    the caller-supplied waiters object, [Remote] the state of everything
    behind the hook (the remote service, the boto3 client, the hook's
    counters).  Every call may return or raise, and may change that state. *)
Class Collaborators (Waiters Remote : Type) : Type := {
  (* self.hook.client.submit_job with its keyword arguments *)
  client_submit_job : submit_kwargs → Remote → outcome dict * Remote;
  (* self.hook.client.terminate_job with jobId and reason *)
  client_terminate_job : pyval → string → Remote → outcome dict * Remote;
  (* self.hook.get_job_description(job_id) *)
  hook_get_job_description : pyval → Remote → outcome dict * Remote;
  (* self.hook.wait_for_job(job_id): the built-in poller *)
  hook_wait_for_job : pyval → Remote → outcome unit * Remote;
  (* self.hook.get_job_awslogs_info(job_id) *)
  hook_get_job_awslogs_info : pyval → Remote → outcome (option dict) * Remote;
  (* self.waiters.wait_for_job(job_id) *)
  waiters_wait_for_job : Waiters → pyval → Remote → outcome unit * Remote;
  (* the truth value of a waiters object, as [if self.waiters:] tests it *)
  waiters_truthy : Waiters → bool
}.

Section Operator.

Context `{Collaborators Waiters Remote}.

Record BatchOperator : Type := {
  job_id : pyval;
  job_name : string;
  job_definition : string;
  job_queue : string;
  overrides : dict;
  array_properties : dict;
  parameters : dict;
  waiters : option Waiters;
  tags : dict;
  wait_for_completion : bool;
  hook : hook_config
}.

(** [BatchOperator.__init__].  An optional argument the caller leaves out
    arrives as [None]: [VNone] for [job_id], which is stored as it comes
    ("usually unknown (None) until the submit_job operation gets the jobId"). *)
Definition init (job_name job_definition job_queue : string) (overrides : dict)
    (array_properties parameters : option dict) (job_id : pyval)
    (waiters : option Waiters) (cfg : hook_config) (tags : option dict)
    (wait_for_completion : bool) : BatchOperator :=
  {| job_id := job_id;
     job_name := job_name;
     job_definition := job_definition;
     job_queue := job_queue;
     overrides := or_empty (Some overrides);
     array_properties := or_empty array_properties;
     parameters := or_empty parameters;
     waiters := waiters;
     tags := or_empty tags;
     wait_for_completion := wait_for_completion;
     hook := cfg |}.

Definition with_job_id (v : pyval) (op : BatchOperator) : BatchOperator :=
  {| job_id := v;
     job_name := job_name op;
     job_definition := job_definition op;
     job_queue := job_queue op;
     overrides := overrides op;
     array_properties := array_properties op;
     parameters := parameters op;
     waiters := waiters op;
     tags := tags op;
     wait_for_completion := wait_for_completion op;
     hook := hook op |}.

(** ** The operator monad *)

Record state : Type := { self : BatchOperator; remote : Remote }.

(** A method body: from the state before to an outcome, the state after and
    the events emitted on the way.  State changes and events that happened
    before an exception was raised are kept, as in Python. *)
Definition M (A : Type) : Type := state → outcome A * state * list event.

#[global] Instance M_ret : MRet M := λ A a s, (Returned a, s, []).

#[global] Instance M_bind : MBind M := λ A B k m s,
  match m s with
  | (Returned a, s1, evs1) =>
      let '(o, s2, evs2) := k a s1 in (o, s2, evs1 ++ evs2)
  | (Raised e, s1, evs1) => (Raised e, s1, evs1)
  end.

Definition raise {A} (e : exn) : M A := λ s, (Raised e, s, []).

Definition lift {A} (o : outcome A) : M A := λ s, (o, s, []).

Definition get_self : M BatchOperator := λ s, (Returned (self s), s, []).

Definition set_job_id (v : pyval) : M unit := λ s,
  (Returned (), {| self := with_job_id v (self s); remote := remote s |}, []).

Definition emit (ev : event) : M unit := λ s, (Returned (), s, [ev]).

Definition log (lvl : level) (fmt : string) (args : list pyval) : M unit :=
  emit (Log lvl fmt args).

(** A call on a collaborator: recorded, then run on the remote state. *)
Definition call {A} (ev : event) (f : Remote → outcome A * Remote) : M A := λ s,
  let '(o, r) := f (remote s) in (o, {| self := self s; remote := r |}, [ev]).

(** [try: body / except <catches>: handler / else: orelse].  Exceptions of
    the handler and of the else-branch are not caught. *)
Definition try_except_else {A B} (body : M A) (catches : exn → bool)
    (handler : exn → M B) (orelse : A → M B) : M B := λ s,
  match body s with
  | (Returned a, s1, evs1) =>
      let '(o, s2, evs2) := orelse a s1 in (o, s2, evs1 ++ evs2)
  | (Raised e, s1, evs1) =>
      if catches e
      then let '(o, s2, evs2) := handler e s1 in (o, s2, evs1 ++ evs2)
      else (Raised e, s1, evs1)
  end.

Definition try_except {A} (body : M A) (catches : exn → bool)
    (handler : exn → M A) : M A :=
  try_except_else body catches handler mret.

(** ** The hook's final check *)

(** Modelled from the spec: [BatchClientHook.check_job_success], which
    [monitor_job] calls but whose body is not part of this file.  The final
    classification check asks the remote service for the job once more,
    re-confirms the terminal SUCCEEDED status, and otherwise fails with a
    [JobFailedError] carrying the status and the description (with the
    reason) that the service reported. *)
Definition hook_check_job_success (jid : pyval) (r : Remote) : outcome unit * Remote :=
  match hook_get_job_description jid r with
  | (Returned job, r1) =>
      if is_succeeded (job !! "status")
      then (Returned (), r1)
      else (Raised (JobFailedError (job !! "status") job), r1)
  | (Raised e, r1) => (Raised e, r1)
  end.

(** [Link.persist] with the context, the operator, the region, the partition
    and the keyword arguments [kw]: observational only. *)
Definition persist (l : link) (kw : dict) : M unit := emit (Persist l kw).

(** ** [submit_job] *)

Definition submit_request (op : BatchOperator) : submit_kwargs :=
  {| jobName := job_name op;
     jobQueue := job_queue op;
     jobDefinition := job_definition op;
     arrayProperties := array_properties op;
     parameters_kw := parameters op;
     containerOverrides := overrides op;
     tags_kw := tags op |}.

Definition submit_job : M unit :=
  op ← get_self;
  log INFO "Running AWS Batch job - job definition: %s - on queue %s"
    [VStr (job_definition op); VStr (job_queue op)];;
  log INFO "AWS Batch job - container overrides: %s" [VDict (overrides op)];;
  response ← try_except
    (call (ClientSubmitJob (submit_request op)) (client_submit_job (submit_request op)))
    (λ _, true)
    (λ e,
      log ERROR "AWS Batch job failed submission - job definition: %s - on queue %s"
        [VStr (job_definition op); VStr (job_queue op)];;
      raise (AirflowException (Cause e)));
  jid ← lift (getitem response "jobId");
  set_job_id jid;;
  log INFO "AWS Batch job (%s) started: %s" [jid; VDict response];;
  persist BatchJobDetailsLink {[ "job_id" := jid ]}.

(** ** [on_kill] *)

Definition on_kill : M unit :=
  op ← get_self;
  response ← call (ClientTerminateJob (job_id op) "Task killed by the user")
                  (client_terminate_job (job_id op) "Task killed by the user");
  log INFO "AWS Batch job (%s) terminated: %s" [job_id op; VDict response].

(** ** [monitor_job] *)

(** Nothing between the guard and the last line assigns [self.job_id], so
    it is read once, into [jid]. *)

(** The best-effort lookup of the job definition and job queue ARNs: the
    [try] / [except KeyError] / [else] block. *)
Definition lookup_arns (jid : pyval) : M unit :=
  try_except_else
    (job_desc ← call (HookGetJobDescription jid) (hook_get_job_description jid);
     job_definition_arn ← lift (getitem job_desc "jobDefinition");
     job_queue_arn ← lift (getitem job_desc "jobQueue");
     log INFO "AWS Batch job (%s) Job Definition ARN: %r, Job Queue ARN: %r"
       [jid; job_definition_arn; job_queue_arn];;
     mret (job_definition_arn, job_queue_arn))
    is_KeyError
    (λ _,
      log WARNING "AWS Batch job (%s) can't get Job Definition ARN and Job Queue ARN" [jid])
    (λ arns,
      persist BatchJobDefinitionLink {[ "job_definition_arn" := arns.1 ]};;
      persist BatchJobQueueLink {[ "job_queue_arn" := arns.2 ]}).

(** [if self.waiters:], the truth value of the attribute: false for
    [None], and for a waiters object whatever its own truth value is. *)
Definition waiters_is_true (op : BatchOperator) : bool :=
  match waiters op with
  | Some w => waiters_truthy w
  | None => false
  end.

(** [if self.waiters: ... else: ...]. *)
Definition wait_for_job (op : BatchOperator) (jid : pyval) : M unit :=
  match waiters op with
  | Some w =>
      if waiters_truthy w
      then call (WaitersWaitForJob jid) (waiters_wait_for_job w jid)
      else call (HookWaitForJob jid) (hook_wait_for_job jid)
  | None => call (HookWaitForJob jid) (hook_wait_for_job jid)
  end.

(** The keyword arguments [monitor_job] itself gives to
    [CloudWatchEventsLink.persist], next to the entries of [awslogs]. *)
Definition persist_keywords : list string :=
  ["context"; "operator"; "region_name"; "aws_partition"].

(** A dict unpacked into that call repeats one of these keywords. *)
Definition splat_collides (d : dict) : bool :=
  existsb (λ k, match d !! k with Some _ => true | None => false end) persist_keywords.

(** The call that unpacks [d] next to the four keywords: a repeated keyword
    is a [TypeError] of the call itself, raised before [persist] runs. *)
Definition persist_splat (l : link) (d : dict) : M unit :=
  if splat_collides d
  then raise (TypeError "persist() got multiple values for keyword argument")
  else persist l d.

(** The CloudWatch lookup after the wait; [if awslogs:] is false for [None]
    and for an empty dict. *)
Definition persist_awslogs (jid : pyval) : M unit :=
  awslogs ← call (HookGetJobAwslogsInfo jid) (hook_get_job_awslogs_info jid);
  match awslogs with
  | Some d =>
      if truthy (VDict d) then
        log INFO "AWS Batch job (%s) CloudWatch Events details found: %s" [jid; VDict d];;
        persist_splat CloudWatchEventsLink d
      else mret ()
  | None => mret ()
  end.

(** The last two statements: the final check and the success record. *)
Definition check_success (jid : pyval) : M unit :=
  call (HookCheckJobSuccess jid) (hook_check_job_success jid);;
  log INFO "AWS Batch job (%s) succeeded" [jid].

(** Everything after the lookup: wait, CloudWatch lookup, final check. *)
Definition wait_and_check (op : BatchOperator) (jid : pyval) : M unit :=
  wait_for_job op jid;;
  persist_awslogs jid;;
  check_success jid.

Definition monitor_job : M unit :=
  op ← get_self;
  let jid := job_id op in
  if negb (truthy jid) then
    raise (AirflowException (Msg "AWS Batch job - job_id was not found"))
  else
    lookup_arns jid;;
    wait_and_check op jid.

(** ** [execute] *)

Definition execute : M pyval :=
  submit_job;;
  op ← get_self;
  (if wait_for_completion op then monitor_job else mret ());;
  op ← get_self;
  mret (job_id op).

(** ** [operator_extra_links] *)

(** A positional argument of [list.extend]: a link object (not iterable) or
    an iterable of links. *)
Inductive pyarg : Type :=
| Obj (l : link)
| Iter (ls : list link).

(** [lst.extend] called with the positional arguments [args]: it takes
    exactly one argument, which must be iterable.  The list is extended in
    place; here the extended list is returned. *)
Definition list_extend (lst : list link) (args : list pyarg) : outcome (list link) :=
  match args with
  | [Iter ls] => Returned (lst ++ ls)
  | [Obj _] => Raised (TypeError "object is not iterable")
  | _ => Raised (TypeError "extend() takes exactly one argument")
  end.

Definition operator_extra_links (op : BatchOperator) : outcome (list link) :=
  let op_extra_links := [BatchJobDetailsLink] in
  match
    (if wait_for_completion op
     then list_extend op_extra_links [Obj BatchJobDefinitionLink; Obj BatchJobQueueLink]
     else Returned op_extra_links)
  with
  | Raised e => Raised e
  | Returned op_extra_links =>
      if negb (truthy (VDict (array_properties op)))
      then Returned (op_extra_links ++ [CloudWatchEventsLink])
      else Returned op_extra_links
  end.

(** ** Vocabulary of the statements *)

(** The three components of a run. *)
Definition outcome_of {A S} (run : outcome A * S * list event) : outcome A := run.1.1.
Definition state_of {A S} (run : outcome A * S * list event) : S := run.1.2.
Definition events_of {A S} (run : outcome A * S * list event) : list event := run.2.

(** What [submit_job] has emitted when the remote submit call returns or
    raises: two log records and the call itself. *)
Definition submit_prologue (op : BatchOperator) : list event :=
  [ Log INFO "Running AWS Batch job - job definition: %s - on queue %s"
      [VStr (job_definition op); VStr (job_queue op)];
    Log INFO "AWS Batch job - container overrides: %s" [VDict (overrides op)];
    ClientSubmitJob (submit_request op) ].

Definition submit_failure_record (op : BatchOperator) : event :=
  Log ERROR "AWS Batch job failed submission - job definition: %s - on queue %s"
    [VStr (job_definition op); VStr (job_queue op)].

Definition submit_success_records (jid : pyval) (response : dict) : list event :=
  [ Log INFO "AWS Batch job (%s) started: %s" [jid; VDict response];
    Persist BatchJobDetailsLink {[ "job_id" := jid ]} ].

(** The error of the guard at the top of [monitor_job]. *)
Definition job_id_not_found : exn :=
  AirflowException (Msg "AWS Batch job - job_id was not found").

(** What [lookup_arns] emits after its describe call. *)
Definition arns_found_records (jid arn_definition arn_queue : pyval) : list event :=
  [ Log INFO "AWS Batch job (%s) Job Definition ARN: %r, Job Queue ARN: %r"
      [jid; arn_definition; arn_queue];
    Persist BatchJobDefinitionLink {[ "job_definition_arn" := arn_definition ]};
    Persist BatchJobQueueLink {[ "job_queue_arn" := arn_queue ]} ].

Definition arns_missing_record (jid : pyval) : event :=
  Log WARNING "AWS Batch job (%s) can't get Job Definition ARN and Job Queue ARN" [jid].

Definition lookup_records (jid : pyval) (described : outcome dict) : list event :=
  match described with
  | Returned job =>
      match job !! "jobDefinition", job !! "jobQueue" with
      | Some arn_definition, Some arn_queue => arns_found_records jid arn_definition arn_queue
      | _, _ => [arns_missing_record jid]
      end
  | Raised e => if is_KeyError e then [arns_missing_record jid] else []
  end.

(** The lookup lets [monitor_job] go on unless its describe call raises
    something other than [KeyError]. *)
Definition lookup_passes (described : outcome dict) : bool :=
  match described with
  | Returned _ => true
  | Raised e => is_KeyError e
  end.


(** The wait strategy the operator is configured with, as a call and as the
    event of that call. *)
Definition active_wait (op : BatchOperator) (jid : pyval) (r : Remote) : outcome unit * Remote :=
  match waiters op with
  | Some w => if waiters_truthy w then waiters_wait_for_job w jid r else hook_wait_for_job jid r
  | None => hook_wait_for_job jid r
  end.

Definition wait_call (op : BatchOperator) (jid : pyval) : event :=
  if waiters_is_true op then WaitersWaitForJob jid else HookWaitForJob jid.



(** The result of the CloudWatch lookup cannot be unpacked into the call
    of [persist]: it is true in a condition and repeats a keyword. *)
Definition awslogs_rejected (awslogs : option dict) : bool :=
  match awslogs with
  | Some d => truthy (VDict d) && splat_collides d
  | None => false
  end.

(** What [persist_awslogs] emits after its call returned [awslogs]. *)
Definition awslogs_records (jid : pyval) (awslogs : option dict) : list event :=
  match awslogs with
  | Some d =>
      if truthy (VDict d)
      then Log INFO "AWS Batch job (%s) CloudWatch Events details found: %s" [jid; VDict d]
           :: (if splat_collides d then [] else [Persist CloudWatchEventsLink d])
      else []
  | None => []
  end.

(** How [persist_awslogs] ends after its call returned [awslogs]. *)
Definition awslogs_outcome (awslogs : option dict) : outcome unit :=
  if awslogs_rejected awslogs
  then Raised (TypeError "persist() got multiple values for keyword argument")
  else Returned ().

(** The reading of [on_kill] under which a missing job identifier is
    rejected before anything is sent: an error, and no terminate call. *)
Definition cancel_checks_job_id (s : state) : Prop :=
  job_id (self s) = VNone →
  (∃ e, outcome_of (on_kill s) = Raised e)
  ∧ count is_terminate_call (events_of (on_kill s)) = 0.

(** ** More vocabulary: kinds of events *)

Definition is_success_record (ev : event) : bool :=
  match ev with
  | Log INFO fmt _ => String.eqb fmt "AWS Batch job (%s) succeeded"
  | _ => false
  end.

Definition is_error_record (ev : event) : bool :=
  match ev with Log ERROR _ _ => true | _ => false end.

Definition link_eqb (l1 l2 : link) : bool :=
  match l1, l2 with
  | BatchJobDetailsLink, BatchJobDetailsLink
  | BatchJobDefinitionLink, BatchJobDefinitionLink
  | BatchJobQueueLink, BatchJobQueueLink
  | CloudWatchEventsLink, CloudWatchEventsLink => true
  | _, _ => false
  end.

(** [l.persist] was called. *)
Definition persists (l : link) (ev : event) : bool :=
  match ev with Persist l' _ => link_eqb l l' | _ => false end.

Definition is_awslogs_lookup (ev : event) : bool :=
  match ev with HookGetJobAwslogsInfo _ => true | _ => false end.

Definition is_final_check (ev : event) : bool :=
  match ev with HookCheckJobSuccess _ => true | _ => false end.

(** The job identifier a call on the client, the hook or the waiters object
    was made with. *)
Definition call_job_id (ev : event) : option pyval :=
  match ev with
  | ClientTerminateJob jid _
  | HookGetJobDescription jid
  | HookWaitForJob jid
  | WaitersWaitForJob jid
  | HookGetJobAwslogsInfo jid
  | HookCheckJobSuccess jid => Some jid
  | Log _ _ _ | ClientSubmitJob _ | Persist _ _ => None
  end.

(** The reading of [monitor_job] under which the final check follows every
    wait that returned. *)
Definition checks_after_every_wait (s : state) : Prop :=
  ∀ described r1 r2,
    truthy (job_id (self s)) = true →
    hook_get_job_description (job_id (self s)) (remote s) = (described, r1) →
    lookup_passes described = true →
    active_wait (self s) (job_id (self s)) r1 = (Returned (), r2) →
    count is_final_check (events_of (monitor_job s)) = 1.


(** The [jobId] of the response the submit call gives in state [s], if the
    call returns and the response has one. *)
Definition submitted_job_id (s : state) : option pyval :=
  match client_submit_job (submit_request (self s)) (remote s) with
  | (Returned response, _) => response !! "jobId"
  | (Raised _, _) => None
  end.

End Operator.

(** ** A scripted remote side *)

(** The remote side as a unit test sets it up: every collaborator call takes
    the next canned answer of its kind, and raises when none is left.  The
    waiters object is a token that carries its truth value. *)
Module Mock.

Record script : Type := {
  submit_answers : list (outcome dict);
  terminate_answers : list (outcome dict);
  describe_answers : list (outcome dict);
  poll_answers : list (outcome unit);
  awslogs_answers : list (outcome (option dict));
  waiter_answers : list (outcome unit)
}.

Definition exhausted {A} : outcome A :=
  Raised (OtherException "StopIteration" "no canned answer left").

Definition next {A} (l : list (outcome A)) : outcome A * list (outcome A) :=
  match l with
  | [] => (exhausted, [])
  | o :: l' => (o, l')
  end.

Definition submit (kw : submit_kwargs) (r : script) : outcome dict * script :=
  let '(o, l) := next (submit_answers r) in
  (o, {| submit_answers := l; terminate_answers := terminate_answers r;
         describe_answers := describe_answers r; poll_answers := poll_answers r;
         awslogs_answers := awslogs_answers r; waiter_answers := waiter_answers r |}).

Definition terminate (jid : pyval) (reason : string) (r : script) : outcome dict * script :=
  let '(o, l) := next (terminate_answers r) in
  (o, {| submit_answers := submit_answers r; terminate_answers := l;
         describe_answers := describe_answers r; poll_answers := poll_answers r;
         awslogs_answers := awslogs_answers r; waiter_answers := waiter_answers r |}).

Definition describe (jid : pyval) (r : script) : outcome dict * script :=
  let '(o, l) := next (describe_answers r) in
  (o, {| submit_answers := submit_answers r; terminate_answers := terminate_answers r;
         describe_answers := l; poll_answers := poll_answers r;
         awslogs_answers := awslogs_answers r; waiter_answers := waiter_answers r |}).

Definition poll (jid : pyval) (r : script) : outcome unit * script :=
  let '(o, l) := next (poll_answers r) in
  (o, {| submit_answers := submit_answers r; terminate_answers := terminate_answers r;
         describe_answers := describe_answers r; poll_answers := l;
         awslogs_answers := awslogs_answers r; waiter_answers := waiter_answers r |}).

Definition awslogs (jid : pyval) (r : script) : outcome (option dict) * script :=
  let '(o, l) := next (awslogs_answers r) in
  (o, {| submit_answers := submit_answers r; terminate_answers := terminate_answers r;
         describe_answers := describe_answers r; poll_answers := poll_answers r;
         awslogs_answers := l; waiter_answers := waiter_answers r |}).

Definition waiter (w : bool) (jid : pyval) (r : script) : outcome unit * script :=
  let '(o, l) := next (waiter_answers r) in
  (o, {| submit_answers := submit_answers r; terminate_answers := terminate_answers r;
         describe_answers := describe_answers r; poll_answers := poll_answers r;
         awslogs_answers := awslogs_answers r; waiter_answers := l |}).

#[global] Instance collaborators : Collaborators bool script := {|
  client_submit_job := submit;
  client_terminate_job := terminate;
  hook_get_job_description := describe;
  hook_wait_for_job := poll;
  hook_get_job_awslogs_info := awslogs;
  waiters_wait_for_job := waiter;
  waiters_truthy := λ w, w
|}.

Definition no_hook_config : hook_config :=
  {| max_retries := None; status_retries := None;
     aws_conn_id := None; region_name := None |}.

(** An operator as a DAG file builds it: only the required arguments. *)
Definition fresh (waiters : option bool) (wait_for_completion : bool) : BatchOperator :=
  init "job" "definition" "queue" ∅ None None VNone waiters no_hook_config None
       wait_for_completion.

(** A script that only answers submit calls. *)
Definition submits (l : list (outcome dict)) : script :=
  {| submit_answers := l; terminate_answers := []; describe_answers := [];
     poll_answers := []; awslogs_answers := []; waiter_answers := [] |}.

(** Scenarios. *)

Definition job_accepted : dict := {[ "jobId" := VStr "j-1"; "jobName" := VStr "job" ]}.

Definition throttled : exn := OtherException "ClientError" "TooManyRequestsException".
Definition unreachable : exn := OtherException "EndpointConnectionError" "could not connect".

(** The submit call fails twice in a row. *)
Definition submit_fails_twice : state :=
  {| self := fresh None true;
     remote := submits [Raised throttled; Raised unreachable] |}.

(** The submit call returns a response that has no [jobId]. *)
Definition submit_without_jobId : state :=
  {| self := fresh None true;
     remote := submits [Returned {[ "jobName" := VStr "job" ]}] |}.

(** The task is killed before anything was submitted; the client rejects
    the missing identifier. *)
Definition killed_before_submit : state :=
  {| self := fresh None true;
     remote := {| submit_answers := [];
                  terminate_answers :=
                    [Raised (OtherException "ParamValidationError" "jobId: expected a string")];
                  describe_answers := [];
                  poll_answers := []; awslogs_answers := []; waiter_answers := [] |} |}.

(** A job that was submitted as [j-1]. *)
Definition submitted (waiters : option bool) : BatchOperator :=
  with_job_id (VStr "j-1") (fresh waiters true).

Definition description (status : string) : dict :=
  {[ "jobId" := VStr "j-1";
     "jobDefinition" := VStr "arn:aws:batch:eu-west-1:1:job-definition/definition:1";
     "jobQueue" := VStr "arn:aws:batch:eu-west-1:1:job-queue/queue";
     "status" := VStr status ]}.

(** The description of a job that ran and failed, with the service's reason. *)
Definition failed_description : dict :=
  <[ "statusReason" := VStr "Essential container in task exited" ]> (description "FAILED").

(** A describe response without the two ARNs. *)
Definition bare_description : dict :=
  {[ "jobId" := VStr "j-1"; "status" := VStr "SUBMITTED" ]}.

(** A script that answers describe calls with [descriptions], and one poll,
    one waiter call and one CloudWatch lookup. *)
Definition describes (descriptions : list (outcome dict)) : script :=
  {| submit_answers := []; terminate_answers := [];
     describe_answers := descriptions;
     poll_answers := [Returned ()];
     awslogs_answers := [Returned None];
     waiter_answers := [Returned ()] |}.

(** What is left of [describes] after the poller was used. *)
Definition polled (descriptions : list (outcome dict)) (awslogs : list (outcome (option dict))) : script :=
  {| submit_answers := []; terminate_answers := [];
     describe_answers := descriptions;
     poll_answers := [];
     awslogs_answers := awslogs;
     waiter_answers := [Returned ()] |}.

(** The poller sees the job complete; the job has failed. *)
Definition job_fails : state :=
  {| self := submitted None;
     remote := describes [Returned (description "RUNNING"); Returned failed_description] |}.

(** The first describe response has no ARNs; the job then succeeds. *)
Definition job_without_arns : state :=
  {| self := submitted None;
     remote := describes [Returned bare_description; Returned (description "SUCCEEDED")] |}.

(** A job that is accepted, polled and found SUCCEEDED. *)
Definition job_succeeds (wait_for_completion : bool) : state :=
  {| self := fresh None wait_for_completion;
     remote := {| submit_answers := [Returned job_accepted];
                  terminate_answers := [Returned ∅];
                  describe_answers := [Returned (description "SUBMITTED");
                                       Returned (description "SUCCEEDED")];
                  poll_answers := [Returned ()];
                  awslogs_answers := [Returned None];
                  waiter_answers := [] |} |}.

(** An array job that is not waited for. *)
Definition array_job : @BatchOperator bool :=
  init "job" "definition" "queue" ∅ (Some {[ "size" := VInt 3 ]}) None VNone None
       no_hook_config None false.

(** The submit call is accepted. *)
Definition submit_accepted (wait_for_completion : bool) : state :=
  {| self := fresh None wait_for_completion;
     remote := submits [Returned job_accepted] |}.

(** The submit call returns an empty [jobId]. *)
Definition empty_jobId : dict := {[ "jobId" := VStr "" ]}.

Definition submit_returns_empty_jobId (wait_for_completion : bool) : state :=
  {| self := fresh None wait_for_completion;
     remote := submits [Returned empty_jobId] |}.

(** An operator whose [job_id] is the empty string. *)
Definition empty_job_id : state :=
  {| self := with_job_id (VStr "") (fresh None true); remote := describes [] |}.

(** The describe call of the lookup is throttled. *)
Definition lookup_throttled : state :=
  {| self := submitted None; remote := describes [Raised throttled] |}.

(** The describe call of the lookup itself raises [KeyError]. *)
Definition lookup_raises_KeyError : state :=
  {| self := submitted None;
     remote := describes [Raised (KeyError "jobs"); Returned (description "SUCCEEDED")] |}.

Definition waiter_timeout : exn := OtherException "WaiterError" "Max attempts exceeded".

(** The waiters object gives up. *)
Definition wait_fails : state :=
  {| self := submitted (Some true);
     remote := {| submit_answers := []; terminate_answers := [];
                  describe_answers := [Returned (description "RUNNING")];
                  poll_answers := [];
                  awslogs_answers := [Returned None];
                  waiter_answers := [Raised waiter_timeout] |} |}.

(** The CloudWatch lookup returns a dict that repeats the keyword
    [region_name]. *)
Definition colliding_awslogs : dict :=
  {[ "awslogs_group" := VStr "/aws/batch/job"; "region_name" := VStr "eu-west-1" ]}.

Definition awslogs_collide : state :=
  {| self := submitted None;
     remote := {| submit_answers := []; terminate_answers := [];
                  describe_answers := [Returned (description "RUNNING");
                                       Returned (description "SUCCEEDED")];
                  poll_answers := [Returned ()];
                  awslogs_answers := [Returned (Some colliding_awslogs)];
                  waiter_answers := [] |} |}.


(** The CloudWatch lookup fails after the poller returned. *)
Definition awslogs_fails : state :=
  {| self := submitted None;
     remote := {| submit_answers := []; terminate_answers := [];
                  describe_answers := [Returned (description "RUNNING");
                                       Returned (description "SUCCEEDED")];
                  poll_answers := [Returned ()];
                  awslogs_answers := [Raised throttled];
                  waiter_answers := [] |} |}.

End Mock.

(** ** The compute environment operator *)

(** [BatchCreateComputeEnvironmentOperator]: one create call through a hook
    that is built on first use. *)
Module ComputeEnvironment.

Inductive event : Type :=
| ClientCreateComputeEnvironment (h : hook_config) (kw : dict)
| LogInfo (msg : string).

Definition is_create_call (ev : event) : bool :=
  match ev with ClientCreateComputeEnvironment _ _ => true | _ => false end.

(** What the operator is written against: [trim_none_values] of
    [airflow.providers.amazon.aws.utils], which is not part of this file and
    is taken as it comes, and [create_compute_environment] of the client of
    the hook [h]. *)
Class Client (Remote : Type) : Type := {
  trim_none_values : dict → dict;
  client_create_compute_environment : hook_config → dict → Remote → outcome dict * Remote
}.

(** The attributes [__init__] sets, and [hook_cache]: the entry that
    [cached_property] stores in the instance once [self.hook] was read. *)
Record BatchCreateComputeEnvironmentOperator : Type := {
  compute_environment_name : string;
  environment_type : string;
  state : string;
  unmanaged_v_cpus : option Z;
  compute_resources : dict;
  service_role : option string;
  tags : dict;
  max_retries : option Z;
  status_retries : option Z;
  aws_conn_id : option string;
  region_name : option string;
  hook_cache : option hook_config
}.

Definition init (compute_environment_name environment_type state : string)
    (compute_resources : dict) (unmanaged_v_cpus : option Z)
    (service_role : option string) (tags : option dict)
    (max_retries status_retries : option Z) (aws_conn_id region_name : option string)
    : BatchCreateComputeEnvironmentOperator :=
  {| compute_environment_name := compute_environment_name;
     environment_type := environment_type;
     state := state;
     unmanaged_v_cpus := unmanaged_v_cpus;
     compute_resources := compute_resources;
     service_role := service_role;
     tags := or_empty tags;
     max_retries := max_retries;
     status_retries := status_retries;
     aws_conn_id := aws_conn_id;
     region_name := region_name;
     hook_cache := None |}.

Definition with_hook_cache (h : hook_config) (op : BatchCreateComputeEnvironmentOperator)
    : BatchCreateComputeEnvironmentOperator :=
  {| compute_environment_name := compute_environment_name op;
     environment_type := environment_type op;
     state := state op;
     unmanaged_v_cpus := unmanaged_v_cpus op;
     compute_resources := compute_resources op;
     service_role := service_role op;
     tags := tags op;
     max_retries := max_retries op;
     status_retries := status_retries op;
     aws_conn_id := aws_conn_id op;
     region_name := region_name op;
     hook_cache := Some h |}.

(** Assigning the four attributes the hook is built from, as a caller may
    do between two runs. *)
Definition reconfigure (max_retries status_retries : option Z)
    (aws_conn_id region_name : option string)
    (op : BatchCreateComputeEnvironmentOperator) : BatchCreateComputeEnvironmentOperator :=
  {| compute_environment_name := compute_environment_name op;
     environment_type := environment_type op;
     state := state op;
     unmanaged_v_cpus := unmanaged_v_cpus op;
     compute_resources := compute_resources op;
     service_role := service_role op;
     tags := tags op;
     max_retries := max_retries;
     status_retries := status_retries;
     aws_conn_id := aws_conn_id;
     region_name := region_name;
     hook_cache := hook_cache op |}.

(** [self.hook], a [cached_property]: built from the attributes the first
    time it is read, and read from the instance afterwards. *)
Definition new_hook (op : BatchCreateComputeEnvironmentOperator) : hook_config :=
  Build_hook_config (max_retries op) (status_retries op) (aws_conn_id op) (region_name op).

Definition hook (op : BatchCreateComputeEnvironmentOperator)
    : hook_config * BatchCreateComputeEnvironmentOperator :=
  match hook_cache op with
  | Some h => (h, op)
  | None => (new_hook op, with_hook_cache (new_hook op) op)
  end.

Definition of_int (o : option Z) : pyval :=
  match o with Some n => VInt n | None => VNone end.

Definition of_str (o : option string) : pyval :=
  match o with Some s => VStr s | None => VNone end.

(** The dict [execute] builds before trimming. *)
Definition kwargs (op : BatchCreateComputeEnvironmentOperator) : dict :=
  {[ "computeEnvironmentName" := VStr (compute_environment_name op);
     "type" := VStr (environment_type op);
     "state" := VStr (state op);
     "unmanagedvCpus" := of_int (unmanaged_v_cpus op);
     "computeResources" := VDict (compute_resources op);
     "serviceRole" := of_str (service_role op);
     "tags" := VDict (tags op) ]}.

Definition execute `{Client Remote} (op : BatchCreateComputeEnvironmentOperator) (r : Remote)
    : outcome unit * BatchCreateComputeEnvironmentOperator * Remote * list event :=
  let '(h, op1) := hook op in
  let kw := trim_none_values (kwargs op) in
  match client_create_compute_environment h kw r with
  | (Returned _, r1) =>
      (Returned (), op1, r1,
       [ ClientCreateComputeEnvironment h kw;
         LogInfo "AWS Batch compute environment created successfully" ])
  | (Raised e, r1) => (Raised e, op1, r1, [ClientCreateComputeEnvironment h kw])
  end.

(** The components of a run. *)
Definition outcome_of {R} (run : outcome unit * BatchCreateComputeEnvironmentOperator * R * list event)
    : outcome unit := run.1.1.1.
Definition operator_of {R} (run : outcome unit * BatchCreateComputeEnvironmentOperator * R * list event)
    : BatchCreateComputeEnvironmentOperator := run.1.1.2.
Definition events_of {R} (run : outcome unit * BatchCreateComputeEnvironmentOperator * R * list event)
    : list event := run.2.

(** The hook a run made its call through. *)
Definition hook_used (evs : list event) : option hook_config :=
  match evs with
  | ClientCreateComputeEnvironment h _ :: _ => Some h
  | _ => None
  end.

Definition is_success_record (ev : event) : bool :=
  match ev with LogInfo _ => true | _ => false end.

Definition is_none (v : pyval) : bool :=
  match v with VNone => true | _ => false end.

(** A client that drops the [None] entries and accepts everything. *)
#[global] Instance accepting : Client unit := {|
  trim_none_values := filter (λ kv : string * pyval, is_none kv.2 = false);
  client_create_compute_environment := λ _ kw r, (Returned kw, r)
|}.

Definition managed : BatchCreateComputeEnvironmentOperator :=
  init "environment" "MANAGED" "ENABLED" ∅ None None None (Some 5%Z) None None
       (Some "eu-west-1").

End ComputeEnvironment.

(** * Properties *)

Section Properties.

Context `{Collaborators Waiters Remote}.

Implicit Types (s : @state Waiters Remote) (op : @BatchOperator Waiters).
Implicit Types (r : Remote) (e : exn).

(** ** Running the monad *)

(** Unfolds the monad and its primitives, and nothing of the data. *)
Ltac run_monad :=
  cbv beta iota zeta delta
    [ mbind M_bind mret M_ret raise lift get_self set_job_id emit log call
      persist persist_splat try_except try_except_else getitem
      submit_job on_kill lookup_arns wait_for_job persist_awslogs
      check_success wait_and_check monitor_job execute
      self remote fst snd ].

Lemma run_bind {A B} (m : M A) (k : A → M B) s :
  (m ≫= k) s =
    match m s with
    | (Returned a, s1, evs1) =>
        let '(o, s2, evs2) := k a s1 in (o, s2, evs1 ++ evs2)
    | (Raised e, s1, evs1) => (Raised e, s1, evs1)
    end.
Proof. reflexivity. Qed.

Lemma count_app p (evs1 evs2 : list event) :
  count p (evs1 ++ evs2) = count p evs1 + count p evs2.
Proof. unfold count. by rewrite filter_app, length_app. Qed.

(** ** [submit_job], case by case *)

Lemma submit_job_run s :
  submit_job s =
    match client_submit_job (submit_request (self s)) (remote s) with
    | (Raised e, r) =>
        (Raised (AirflowException (Cause e)),
         {| self := self s; remote := r |},
         submit_prologue (self s) ++ [submit_failure_record (self s)])
    | (Returned response, r) =>
        match response !! "jobId" with
        | None =>
            (Raised (KeyError "jobId"),
             {| self := self s; remote := r |},
             submit_prologue (self s))
        | Some jid =>
            (Returned (),
             {| self := with_job_id jid (self s); remote := r |},
             submit_prologue (self s) ++ submit_success_records jid response)
        end
    end.
Proof.
  run_monad.
  destruct (client_submit_job _ _) as [[response|e] r]; run_monad; [|done].
  destruct (response !! "jobId") as [jid|]; done.
Qed.

Lemma submit_prologue_one_call op : count is_submit_call (submit_prologue op) = 1.
Proof. reflexivity. Qed.

Lemma submit_job_one_call s : count is_submit_call (events_of (submit_job s)) = 1.
Proof.
  rewrite submit_job_run.
  destruct (client_submit_job _ _) as [[response|e] r];
    [destruct (response !! "jobId")|];
    unfold events_of; cbn [snd]; by rewrite ?count_app, submit_prologue_one_call.
Qed.

(** ** [monitor_job], block by block *)

Lemma lookup_arns_run jid s :
  lookup_arns jid s =
    let '(described, r) := hook_get_job_description jid (remote s) in
    (match described with
     | Returned _ => Returned ()
     | Raised e => if is_KeyError e then Returned () else Raised e
     end,
     {| self := self s; remote := r |},
     HookGetJobDescription jid :: lookup_records jid described).
Proof.
  run_monad. unfold lookup_records.
  destruct (hook_get_job_description _ _) as [[job|e] r]; run_monad.
  - destruct (job !! "jobDefinition") as [d|]; [|done].
    destruct (job !! "jobQueue") as [q|]; done.
  - destruct (is_KeyError e); done.
Qed.

Lemma wait_for_job_run op jid s :
  wait_for_job op jid s =
    let '(waited, r) := active_wait op jid (remote s) in
    (waited, {| self := self s; remote := r |}, [wait_call op jid]).
Proof.
  unfold wait_for_job, active_wait, wait_call, waiters_is_true.
  destruct (waiters op) as [w|]; [|done]. by destruct (waiters_truthy w).
Qed.

Lemma persist_awslogs_run jid s :
  persist_awslogs jid s =
    match hook_get_job_awslogs_info jid (remote s) with
    | (Returned awslogs, r) =>
        (awslogs_outcome awslogs, {| self := self s; remote := r |},
         HookGetJobAwslogsInfo jid :: awslogs_records jid awslogs)
    | (Raised e, r) =>
        (Raised e, {| self := self s; remote := r |}, [HookGetJobAwslogsInfo jid])
    end.
Proof.
  run_monad. unfold awslogs_records, awslogs_outcome, awslogs_rejected.
  destruct (hook_get_job_awslogs_info _ _) as [[[d|]|e] r]; run_monad; [|done..].
  destruct (truthy (VDict d)); [|done]. cbn [andb].
  destruct (splat_collides d); done.
Qed.

Lemma check_success_run jid s :
  check_success jid s =
    match hook_check_job_success jid (remote s) with
    | (Returned _, r) =>
        (Returned (), {| self := self s; remote := r |},
         [HookCheckJobSuccess jid; Log INFO "AWS Batch job (%s) succeeded" [jid]])
    | (Raised e, r) =>
        (Raised e, {| self := self s; remote := r |}, [HookCheckJobSuccess jid])
    end.
Proof.
  run_monad. by destruct (hook_check_job_success _ _) as [[[]|e] r].
Qed.

Lemma wait_and_check_run op jid s :
  wait_and_check op jid s =
    match wait_for_job op jid s with
    | (Returned _, s1, evs1) =>
        match persist_awslogs jid s1 with
        | (Returned _, s2, evs2) =>
            let '(o, s3, evs3) := check_success jid s2 in (o, s3, evs1 ++ evs2 ++ evs3)
        | (Raised e, s2, evs2) => (Raised e, s2, evs1 ++ evs2)
        end
    | (Raised e, s1, evs1) => (Raised e, s1, evs1)
    end.
Proof.
  unfold wait_and_check. rewrite !run_bind.
  destruct (wait_for_job op jid s) as [[[[]|e] s1] evs1]; [|done].
  rewrite !run_bind.
  destruct (persist_awslogs jid s1) as [[[[]|e] s2] evs2]; [|done].
  by destruct (check_success jid s2) as [[o s3] evs3].
Qed.

Lemma monitor_job_run s :
  monitor_job s =
    if truthy (job_id (self s)) then
      match lookup_arns (job_id (self s)) s with
      | (Returned _, s1, evs1) =>
          let '(o, s2, evs2) := wait_and_check (self s) (job_id (self s)) s1 in
          (o, s2, evs1 ++ evs2)
      | (Raised e, s1, evs1) => (Raised e, s1, evs1)
      end
    else (Raised job_id_not_found, s, []).
Proof.
  unfold monitor_job, get_self, raise, job_id_not_found. rewrite run_bind.
  destruct (truthy (job_id (self s))); cbn [negb]; [|done].
  rewrite run_bind.
  destruct (lookup_arns _ s) as [[[[]|e] s1] evs1]; [|done].
  by destruct (wait_and_check _ _ s1) as [[o s2] evs2].
Qed.

(** ** What the blocks leave alone *)

Lemma lookup_arns_self jid s : self (state_of (lookup_arns jid s)) = self s.
Proof.
  rewrite lookup_arns_run. by destruct (hook_get_job_description _ _).
Qed.

Lemma wait_and_check_self op jid s : self (state_of (wait_and_check op jid s)) = self s.
Proof.
  rewrite wait_and_check_run, wait_for_job_run.
  destruct (active_wait _ _ _) as [[[]|e] r1]; [|done].
  rewrite persist_awslogs_run; cbn [self remote].
  destruct (hook_get_job_awslogs_info _ _) as [[awslogs|e] r2]; [|done].
  destruct (awslogs_outcome awslogs) as [[]|e]; [|done].
  rewrite check_success_run; cbn [self remote].
  by destruct (hook_check_job_success _ _) as [[[]|e] r3].
Qed.

Lemma monitor_job_self s : self (state_of (monitor_job s)) = self s.
Proof.
  rewrite monitor_job_run. destruct (truthy _); [|done].
  pose proof (lookup_arns_self (job_id (self s)) s) as Hself.
  destruct (lookup_arns _ s) as [[[[]|e] s1] evs1]; [|done].
  pose proof (wait_and_check_self (self s) (job_id (self s)) s1) as Hself'.
  destruct (wait_and_check _ _ s1) as [[o s2] evs2].
  unfold state_of in *; cbn [fst snd] in *. congruence.
Qed.

Lemma submit_job_self s :
  ∃ jid, self (state_of (submit_job s)) = with_job_id jid (self s).
Proof.
  rewrite submit_job_run.
  destruct (client_submit_job _ _) as [[response|e] r].
  - destruct (response !! "jobId") as [jid|]; [by exists jid|].
    exists (job_id (self s)). by destruct s as [[]].
  - exists (job_id (self s)). by destruct s as [[]].
Qed.

Lemma submit_job_no_monitor_call s :
  count is_monitor_call (events_of (submit_job s)) = 0.
Proof.
  rewrite submit_job_run.
  destruct (client_submit_job _ _) as [[response|e] r]; [|done].
  destruct (response !! "jobId"); done.
Qed.

(** ** The wait calls of each block *)




(** ** Submit *)

(** C3.  When the remote submit call raises, [submit_job] has made exactly
    one submit call, logs the failure and raises a single [AirflowException]
    wrapping what the call raised; nothing is retried.  Whatever the next
    call does, a second [submit_job] again makes exactly one submit call,
    and when that call raises too it ends in the same way: each failure
    costs one call and yields one error. *)
Theorem submit_job_failure_is_wrapped_once s e1 r1 :
  client_submit_job (submit_request (self s)) (remote s) = (Raised e1, r1) →
  let first := submit_job s in
  let second := submit_job (state_of first) in
  first = (Raised (AirflowException (Cause e1)),
           {| self := self s; remote := r1 |},
           submit_prologue (self s) ++ [submit_failure_record (self s)])
  ∧ count is_submit_call (events_of first) = 1
  ∧ count is_submit_call (events_of second) = 1
  ∧ match client_submit_job (submit_request (self s)) r1 with
    | (Raised e2, r2) =>
        second = (Raised (AirflowException (Cause e2)),
                  {| self := self s; remote := r2 |},
                  submit_prologue (self s) ++ [submit_failure_record (self s)])
    | (Returned _, _) => count is_error_record (events_of second) = 0
    end.
Proof.
  intros H1 first second.
  assert (Hfirst : first = (Raised (AirflowException (Cause e1)),
                            {| self := self s; remote := r1 |},
                            submit_prologue (self s) ++ [submit_failure_record (self s)])).
  { subst first. by rewrite submit_job_run, H1. }
  split; [done|]. split; [apply submit_job_one_call|]. split; [apply submit_job_one_call|].
  subst second. rewrite Hfirst. unfold state_of; cbn [fst snd].
  rewrite submit_job_run; cbn [self remote].
  destruct (client_submit_job _ r1) as [[response|e2] r2]; [|done].
  destruct (response !! "jobId"); done.
Qed.

(** C8.  [submit_job] changes no field of the operator except [job_id],
    whether it returns or raises; [job_id] becomes the [jobId] of the
    response when the remote call returns one, and is left as it was
    otherwise. *)
Theorem submit_job_only_sets_job_id s :
  let op' := self (state_of (submit_job s)) in
  job_name op' = job_name (self s)
  ∧ job_definition op' = job_definition (self s)
  ∧ job_queue op' = job_queue (self s)
  ∧ overrides op' = overrides (self s)
  ∧ array_properties op' = array_properties (self s)
  ∧ parameters op' = parameters (self s)
  ∧ tags op' = tags (self s)
  ∧ waiters op' = waiters (self s)
  ∧ wait_for_completion op' = wait_for_completion (self s)
  ∧ hook op' = hook (self s)
  ∧ job_id op' =
      match client_submit_job (submit_request (self s)) (remote s) with
      | (Returned response, _) => default (job_id (self s)) (response !! "jobId")
      | (Raised _, _) => job_id (self s)
      end.
Proof.
  rewrite submit_job_run.
  destruct (client_submit_job _ _) as [[response|e] r]; [|done].
  destruct (response !! "jobId"); done.
Qed.

(** C10.  When the remote submit call returns a response without the key
    [jobId], [submit_job] raises the bare [KeyError] of the subscript (the
    failure record is not logged and nothing is wrapped), and the operator,
    its [job_id] included, is as before. *)
Theorem submit_job_response_without_jobId s response r :
  client_submit_job (submit_request (self s)) (remote s) = (Returned response, r) →
  response !! "jobId" = None →
  submit_job s = (Raised (KeyError "jobId"),
                  {| self := self s; remote := r |},
                  submit_prologue (self s))
  ∧ job_id (self (state_of (submit_job s))) = job_id (self s).
Proof.
  intros Hcall Hkey. rewrite submit_job_run, Hcall, Hkey. done.
Qed.

(** ** Monitor *)

(** The guard of [monitor_job], for every false [job_id] ([None], but also
    an empty string). *)
Lemma monitor_job_guard s :
  truthy (job_id (self s)) = false → monitor_job s = (Raised job_id_not_found, s, []).
Proof. intros Hfalse. by rewrite monitor_job_run, Hfalse. Qed.

(** C2.  With [job_id] unset, [monitor_job] raises the [AirflowException]
    of its guard and does nothing else: no event, no change of the remote
    side.  This is also what happens after a [submit_job] that raised,
    because a failed submit leaves [job_id] as it was. *)
Theorem monitor_job_requires_job_id s :
  job_id (self s) = VNone →
  monitor_job s = (Raised job_id_not_found, s, [])
  ∧ match submit_job s with
    | (Raised _, s1, _) => monitor_job s1 = (Raised job_id_not_found, s1, [])
    | (Returned _, _, _) => True
    end.
Proof.
  intros Hunset. split.
  - apply monitor_job_guard. by rewrite Hunset.
  - rewrite submit_job_run.
    destruct (client_submit_job _ _) as [[response|e] r].
    + destruct (response !! "jobId"); [done|].
      apply monitor_job_guard. cbn [self]. by rewrite Hunset.
    + apply monitor_job_guard. cbn [self]. by rewrite Hunset.
Qed.

(** C1, as the code has it.  Once the guard and the lookup have passed,
    the configured wait strategy has returned, and the CloudWatch lookup
    that follows has returned a result that the call of [persist] accepts,
    [monitor_job] asks the hook for the final check; when the status the
    service then reports is not SUCCEEDED, [monitor_job] raises the
    [JobFailedError] of that check, carrying the reported status and
    description.  The check is the last thing it does: the success record is
    not logged. *)
Theorem monitor_job_fails_unless_succeeded s described r1 r2 awslogs r3 job r4 :
  let op := self s in
  let jid := job_id op in
  truthy jid = true →
  hook_get_job_description jid (remote s) = (described, r1) →
  lookup_passes described = true →
  active_wait op jid r1 = (Returned (), r2) →
  hook_get_job_awslogs_info jid r2 = (Returned awslogs, r3) →
  awslogs_rejected awslogs = false →
  hook_get_job_description jid r3 = (Returned job, r4) →
  is_succeeded (job !! "status") = false →
  monitor_job s =
    (Raised (JobFailedError (job !! "status") job),
     {| self := op; remote := r4 |},
     (HookGetJobDescription jid :: lookup_records jid described)
     ++ [wait_call op jid]
     ++ (HookGetJobAwslogsInfo jid :: awslogs_records jid awslogs)
     ++ [HookCheckJobSuccess jid]).
Proof.
  intros op jid Hset Hlookup Hpasses Hwait Hlogs Haccepted Hcheck Hstatus.
  rewrite monitor_job_run. fold op jid. rewrite Hset.
  rewrite lookup_arns_run, Hlookup.
  assert (Hpassed : match described with
                    | Returned _ => Returned ()
                    | Raised e => if is_KeyError e then Returned () else Raised e
                    end = Returned ()).
  { destruct described as [?|e]; [done|]. cbn in Hpasses. by rewrite Hpasses. }
  rewrite Hpassed.
  rewrite wait_and_check_run, wait_for_job_run; cbn [self remote]. rewrite Hwait.
  rewrite persist_awslogs_run; cbn [self remote]. rewrite Hlogs.
  unfold awslogs_outcome. rewrite Haccepted.
  rewrite check_success_run; cbn [self remote].
  unfold hook_check_job_success. rewrite Hcheck, Hstatus. done.
Qed.

(** C6.  When the describe response of the lookup lacks the job definition
    ARN or the job queue ARN, [monitor_job] logs the warning and goes on to
    its wait: its outcome and final state are those of the rest of the
    method run from the state the describe call left, and the wait call is
    the next thing after the warning. *)
Theorem monitor_job_lookup_without_arns s job r1 :
  let op := self s in
  let jid := job_id op in
  let rest := wait_and_check op jid {| self := op; remote := r1 |} in
  truthy jid = true →
  hook_get_job_description jid (remote s) = (Returned job, r1) →
  job !! "jobDefinition" = None ∨ job !! "jobQueue" = None →
  monitor_job s =
    (outcome_of rest, state_of rest,
     HookGetJobDescription jid :: arns_missing_record jid :: events_of rest)
  ∧ ∃ evs, events_of rest = wait_call op jid :: evs.
Proof.
  intros op jid rest Hset Hlookup Hmissing. split.
  - rewrite monitor_job_run. fold op jid. rewrite Hset.
    rewrite lookup_arns_run, Hlookup.
    change (wait_and_check op jid _) with rest.
    assert (Hrecords : lookup_records jid (Returned job) = [arns_missing_record jid]).
    { unfold lookup_records. destruct Hmissing as [-> | ->]; [done|].
      by destruct (job !! "jobDefinition"). }
    rewrite Hrecords. clearbody rest. by destruct rest as [[o s2] evs2].
  - subst rest. rewrite wait_and_check_run, wait_for_job_run; cbn [self remote].
    destruct (active_wait _ _ _) as [[[]|e] r2]; [|by eexists].
    rewrite persist_awslogs_run; cbn [self remote].
    destruct (hook_get_job_awslogs_info _ _) as [[awslogs|e] r3]; [|by eexists].
    destruct (awslogs_outcome awslogs) as [[]|e]; [|by eexists].
    destruct (check_success _ _) as [[o s3] evs3]. by eexists.
Qed.


(** ** Execute *)

(** C4.  [execute] runs [submit_job] first and stops there if it raises.
    Without [wait_for_completion] it then returns [job_id] at once, having
    made none of the calls of [monitor_job]; with it, [monitor_job] runs on
    the state [submit_job] left and [execute] returns [job_id] only if
    [monitor_job] returns. *)
Theorem execute_submits_then_monitors s :
  execute s =
    match submit_job s with
    | (Raised e, s1, evs1) => (Raised e, s1, evs1)
    | (Returned _, s1, evs1) =>
        if wait_for_completion (self s) then
          match monitor_job s1 with
          | (Raised e, s2, evs2) => (Raised e, s2, evs1 ++ evs2)
          | (Returned _, s2, evs2) => (Returned (job_id (self s1)), s2, evs1 ++ evs2)
          end
        else (Returned (job_id (self s1)), s1, evs1)
    end
  ∧ (if wait_for_completion (self s) then True
     else count is_monitor_call (events_of (execute s)) = 0).
Proof.
  assert (Hrun : execute s =
    match submit_job s with
    | (Raised e, s1, evs1) => (Raised e, s1, evs1)
    | (Returned _, s1, evs1) =>
        if wait_for_completion (self s) then
          match monitor_job s1 with
          | (Raised e, s2, evs2) => (Raised e, s2, evs1 ++ evs2)
          | (Returned _, s2, evs2) => (Returned (job_id (self s1)), s2, evs1 ++ evs2)
          end
        else (Returned (job_id (self s1)), s1, evs1)
    end).
  { destruct (submit_job_self s) as [jid Hself1].
    assert (Hwait : wait_for_completion (self (state_of (submit_job s)))
                    = wait_for_completion (self s)) by by rewrite Hself1.
    clear jid Hself1.
    unfold execute, get_self. rewrite run_bind.
    destruct (submit_job s) as [[[[]|e] s1] evs1]; [|done].
    unfold state_of in Hwait; cbn [fst snd] in Hwait. rewrite <- Hwait.
    rewrite !run_bind.
    destruct (wait_for_completion (self s1)).
    - pose proof (monitor_job_self s1) as Hself.
      destruct (monitor_job s1) as [[[[]|e] s2] evs2]; [|done].
      unfold state_of in Hself; cbn [fst snd] in Hself.
      rewrite <- Hself. run_monad. cbn [app]. by rewrite !app_nil_r.
    - run_monad. cbn [app]. by rewrite !app_nil_r. }
  split; [done|].
  rewrite Hrun. pose proof (submit_job_no_monitor_call s) as Hnone.
  destruct (wait_for_completion (self s)); [done|].
  by destruct (submit_job s) as [[[[]|e] s1] evs1].
Qed.

(** ** Cancel *)

(** C5, as the code has it.  [on_kill] does not look at [job_id]: it always
    makes exactly one terminate call, with whatever [job_id] holds and the
    reason given in the code; it logs the response when the call returns and
    lets the call's own exception through when it raises. *)
Theorem on_kill_always_calls_terminate s :
  let jid := job_id (self s) in
  let reason := "Task killed by the user" in
  on_kill s =
    match client_terminate_job jid reason (remote s) with
    | (Returned response, r) =>
        (Returned (), {| self := self s; remote := r |},
         [ ClientTerminateJob jid reason;
           Log INFO "AWS Batch job (%s) terminated: %s" [jid; VDict response] ])
    | (Raised e, r) =>
        (Raised e, {| self := self s; remote := r |}, [ClientTerminateJob jid reason])
    end
  ∧ count is_terminate_call (events_of (on_kill s)) = 1.
Proof.
  run_monad. unfold events_of.
  destruct (client_terminate_job _ _ _) as [[response|e] r]; done.
Qed.

(** ** Extra links *)

(** C9.  With [wait_for_completion] set, reading [operator_extra_links]
    raises a [TypeError]: [extend] is given two positional arguments. *)
Theorem operator_extra_links_raises_when_waiting op :
  wait_for_completion op = true →
  ∃ msg, operator_extra_links op = Raised (TypeError msg).
Proof.
  intros Hwait. unfold operator_extra_links. rewrite Hwait. by eexists.
Qed.

(** * Further properties *)

(** ** [monitor_job] and [execute], path by path *)

Lemma monitor_job_paths s :
  let op := self s in
  let jid := job_id op in
  monitor_job s =
    if truthy jid then
      let '(described, r1) := hook_get_job_description jid (remote s) in
      let looked_up := HookGetJobDescription jid :: lookup_records jid described in
      match described with
      | Raised e =>
          if is_KeyError e then
            let '(o, s2, evs) := wait_and_check op jid {| self := op; remote := r1 |} in
            (o, s2, looked_up ++ evs)
          else (Raised e, {| self := op; remote := r1 |}, looked_up)
      | Returned _ =>
          let '(o, s2, evs) := wait_and_check op jid {| self := op; remote := r1 |} in
          (o, s2, looked_up ++ evs)
      end
    else (Raised job_id_not_found, s, []).
Proof.
  intros op jid. rewrite monitor_job_run. fold op jid.
  destruct (truthy jid); [|done].
  rewrite lookup_arns_run. fold op.
  destruct (hook_get_job_description _ _) as [[job|e] r1]; [done|].
  by destruct (is_KeyError e).
Qed.

Lemma wait_and_check_paths op jid s :
  wait_and_check op jid s =
    match active_wait op jid (remote s) with
    | (Raised e, r2) => (Raised e, {| self := self s; remote := r2 |}, [wait_call op jid])
    | (Returned _, r2) =>
        match hook_get_job_awslogs_info jid r2 with
        | (Raised e, r3) =>
            (Raised e, {| self := self s; remote := r3 |},
             [wait_call op jid; HookGetJobAwslogsInfo jid])
        | (Returned awslogs, r3) =>
            let waited :=
              wait_call op jid :: HookGetJobAwslogsInfo jid :: awslogs_records jid awslogs in
            match awslogs_outcome awslogs with
            | Raised e => (Raised e, {| self := self s; remote := r3 |}, waited)
            | Returned _ =>
                match hook_check_job_success jid r3 with
                | (Raised e, r4) =>
                    (Raised e, {| self := self s; remote := r4 |},
                     waited ++ [HookCheckJobSuccess jid])
                | (Returned _, r4) =>
                    (Returned (), {| self := self s; remote := r4 |},
                     waited ++ [ HookCheckJobSuccess jid;
                                 Log INFO "AWS Batch job (%s) succeeded" [jid] ])
                end
            end
        end
    end.
Proof.
  rewrite wait_and_check_run, wait_for_job_run.
  destruct (active_wait _ _ _) as [[[]|e] r2]; [|done].
  rewrite persist_awslogs_run; cbn [self remote].
  destruct (hook_get_job_awslogs_info _ _) as [[awslogs|e] r3]; [|done].
  destruct (awslogs_outcome awslogs) as [[]|e]; [|done].
  rewrite check_success_run; cbn [self remote].
  by destruct (hook_check_job_success _ _) as [[[]|e] r4].
Qed.

Lemma execute_run s :
  execute s =
    match submit_job s with
    | (Raised e, s1, evs1) => (Raised e, s1, evs1)
    | (Returned _, s1, evs1) =>
        if wait_for_completion (self s1) then
          match monitor_job s1 with
          | (Raised e, s2, evs2) => (Raised e, s2, evs1 ++ evs2)
          | (Returned _, s2, evs2) => (Returned (job_id (self s2)), s2, evs1 ++ evs2)
          end
        else (Returned (job_id (self s1)), s1, evs1)
    end.
Proof.
  unfold execute, get_self. rewrite run_bind.
  destruct (submit_job s) as [[[[]|e] s1] evs1]; [|done].
  rewrite !run_bind.
  destruct (wait_for_completion (self s1)).
  - destruct (monitor_job s1) as [[[[]|e] s2] evs2]; [|done].
    run_monad. cbn [app]. by rewrite !app_nil_r.
  - run_monad. cbn [app]. by rewrite !app_nil_r.
Qed.

(** Splits a run of [monitor_job] into its paths. *)
Ltac split_paths :=
  rewrite ?monitor_job_paths; cbv zeta;
  try (destruct (truthy _) eqn:?);
  try (destruct (hook_get_job_description _ _) as [[?|?] ?] eqn:?);
  try (destruct (is_KeyError _) eqn:?);
  rewrite ?wait_and_check_paths;
  cbn [self remote];
  unfold lookup_records, awslogs_records, awslogs_outcome, awslogs_rejected,
    wait_call, waiters_is_true;
  repeat case_match; simplify_eq.

Lemma monitor_job_no_client_call s :
  count is_submit_call (events_of (monitor_job s)) = 0
  ∧ count is_terminate_call (events_of (monitor_job s)) = 0.
Proof. split_paths; by split. Qed.

Lemma monitor_job_call_job_ids s :
  Forall (λ jid, job_id (self s) = jid) (omap call_job_id (events_of (monitor_job s))).
Proof.
  split_paths; unfold events_of; cbn; repeat (constructor; [reflexivity|]); constructor.
Qed.

Lemma or_empty_default (o : option dict) : or_empty o = default ∅ o.
Proof.
  destruct o as [d|]; [|done]. cbn.
  destruct (size d =? 0) eqn:Hsize; [|done].
  apply Nat.eqb_eq, map_size_empty_iff in Hsize. by subst.
Qed.

(** ** Construction and extra links *)

(** X1.  [__init__] stores every dict it is given as it is, [{}] for one that is
    left out, and [job_id] untouched (an empty string stays an empty
    string). *)
Theorem init_stores_arguments (name definition queue : string) (ov : dict)
    (ap pa : option dict) (jid : pyval) (w : option Waiters) (cfg : hook_config)
    (tg : option dict) (wfc : bool) :
  let op := init name definition queue ov ap pa jid w cfg tg wfc in
  overrides op = ov
  ∧ array_properties op = default ∅ ap
  ∧ parameters op = default ∅ pa
  ∧ tags op = default ∅ tg
  ∧ job_id op = jid.
Proof.
  unfold init. cbn [overrides array_properties parameters tags job_id].
  by rewrite !or_empty_default.
Qed.

(** X2.  Whenever [operator_extra_links] returns, [wait_for_completion] is off
    and the result is the job details link, followed by the CloudWatch link
    exactly when there are no array properties.  The job definition and job
    queue links are in no result. *)
Theorem operator_extra_links_returned op (ls : list link) :
  operator_extra_links op = Returned ls →
  wait_for_completion op = false
  ∧ (array_properties op = ∅ ∧ ls = [BatchJobDetailsLink; CloudWatchEventsLink]
     ∨ array_properties op ≠ ∅ ∧ ls = [BatchJobDetailsLink]).
Proof.
  unfold operator_extra_links. destruct (wait_for_completion op); [done|].
  intros Hls. split; [done|]. cbn in Hls.
  destruct (size (array_properties op) =? 0) eqn:Hsize; cbn in Hls; simplify_eq.
  - left. split; [|done]. by apply map_size_empty_iff, Nat.eqb_eq.
  - right. split; [|done]. intros Hempty.
    rewrite Hempty, map_size_empty in Hsize. done.
Qed.

(** ** Submit, then *)

(** X3.  If [submit_job] returns, the submit call returned a response with a
    [jobId]; that value is now [job_id], the started record was logged and
    the job details link persisted with it, and no error record was logged. *)
Theorem submit_job_returned s :
  outcome_of (submit_job s) = Returned () →
  ∃ response r jid,
    client_submit_job (submit_request (self s)) (remote s) = (Returned response, r)
    ∧ response !! "jobId" = Some jid
    ∧ submit_job s =
        (Returned (), {| self := with_job_id jid (self s); remote := r |},
         submit_prologue (self s) ++ submit_success_records jid response)
    ∧ count is_error_record (events_of (submit_job s)) = 0.
Proof.
  rewrite submit_job_run.
  destruct (client_submit_job _ _) as [[response|e] r]; [|done].
  destruct (response !! "jobId") as [jid|] eqn:Hjid; [|done].
  intros _. by exists response, r, jid.
Qed.

(** X4.  After a [submit_job] that got a [jobId], [on_kill] terminates that job:
    its terminate call carries the identifier the service returned. *)
Theorem on_kill_after_submit_terminates_that_job s jid :
  submitted_job_id s = Some jid →
  head (events_of (on_kill (state_of (submit_job s))))
  = Some (ClientTerminateJob jid "Task killed by the user").
Proof.
  unfold submitted_job_id. rewrite submit_job_run.
  destruct (client_submit_job _ _) as [[response|e] r]; [|done].
  intros ->. unfold state_of; cbn [fst snd].
  run_monad. by destruct (client_terminate_job _ _ _) as [[?|?] ?].
Qed.

(** ** Execute *)

(** X5.  Whatever [execute] returns is the [jobId] the submit call of this very
    run returned, and it is what [job_id] holds afterwards (never an
    identifier the operator was built with). *)
Theorem execute_returns_submitted_job_id s v :
  outcome_of (execute s) = Returned v →
  submitted_job_id s = Some v
  ∧ job_id (self (state_of (execute s))) = v.
Proof.
  unfold submitted_job_id. rewrite execute_run.
  pose proof (submit_job_run s) as Hsubmit.
  destruct (client_submit_job _ _) as [[response|e] r]; [|by rewrite Hsubmit].
  destruct (response !! "jobId") as [jid|]; rewrite Hsubmit; [|done].
  cbn [self wait_for_completion with_job_id].
  destruct (wait_for_completion (self s)).
  - pose proof (monitor_job_self {| self := with_job_id jid (self s); remote := r |}) as Hself.
    destruct (monitor_job _) as [[[[]|e] s2] evs2]; [|done].
    unfold outcome_of, state_of in *; cbn [fst snd self] in *.
    rewrite Hself. cbn. by intros [= ->].
  - unfold outcome_of, state_of; cbn. by intros [= ->].
Qed.

(** X6.  Once the submit call has returned a [jobId], [job_id] holds it when
    [execute] ends, whether monitoring returned or raised: a later [on_kill]
    still knows which job to terminate. *)
Theorem execute_keeps_job_id_when_monitoring_fails s jid :
  submitted_job_id s = Some jid →
  job_id (self (state_of (execute s))) = jid.
Proof.
  unfold submitted_job_id. rewrite execute_run.
  pose proof (submit_job_run s) as Hsubmit.
  destruct (client_submit_job _ _) as [[response|e] r]; [|done].
  intros Hjid. rewrite Hjid in Hsubmit. rewrite Hsubmit.
  destruct (wait_for_completion _); [|done].
  pose proof (monitor_job_self {| self := with_job_id jid (self s); remote := r |}) as Hself.
  destruct (monitor_job _) as [[[[]|e] s2] evs2];
    unfold state_of in *; cbn [fst snd] in *; by rewrite Hself.
Qed.

(** X7.  In every run [execute] makes exactly one submit call and no terminate
    call: it neither resubmits nor cancels, whatever fails. *)
Theorem execute_submits_once_never_terminates s :
  count is_submit_call (events_of (execute s)) = 1
  ∧ count is_terminate_call (events_of (execute s)) = 0.
Proof.
  rewrite execute_run.
  pose proof (submit_job_run s) as Hsubmit.
  destruct (client_submit_job _ _) as [[response|e] r]; [|by rewrite Hsubmit].
  destruct (response !! "jobId") as [jid|]; rewrite Hsubmit; [|done].
  destruct (wait_for_completion _); [|done].
  destruct (monitor_job_no_client_call {| self := with_job_id jid (self s); remote := r |})
    as [Hsubmits Hterminates].
  destruct (monitor_job _) as [[[[]|e] s2] evs2];
    unfold events_of in *; cbn [snd] in *;
    by rewrite !count_app, Hsubmits, Hterminates.
Qed.

(** X8.  When the response of the submit call carries a [jobId] that is false
    in a condition (an empty string, [None]), [submit_job] stores and
    persists it all the same; [execute] then fails on the guard of
    [monitor_job] if it waits, and returns the false value if it does not. *)
Theorem execute_with_false_jobId s response r jid :
  client_submit_job (submit_request (self s)) (remote s) = (Returned response, r) →
  response !! "jobId" = Some jid →
  truthy jid = false →
  execute s =
    (if wait_for_completion (self s) then Raised job_id_not_found else Returned jid,
     {| self := with_job_id jid (self s); remote := r |},
     submit_prologue (self s) ++ submit_success_records jid response).
Proof.
  intros Hcall Hjid Hfalse.
  rewrite execute_run, submit_job_run, Hcall, Hjid.
  cbn [self wait_for_completion with_job_id].
  destruct (wait_for_completion (self s)); [|done].
  rewrite monitor_job_paths. cbv zeta. cbn [self job_id with_job_id].
  by rewrite Hfalse, app_nil_r.
Qed.

(** X9.  Every call [execute] makes on the hook or the waiters object is about
    the job the submit call of this run returned. *)
Theorem execute_monitors_the_submitted_job s :
  Forall (λ jid, submitted_job_id s = Some jid)
         (omap call_job_id (events_of (execute s))).
Proof.
  unfold submitted_job_id. rewrite execute_run.
  pose proof (submit_job_run s) as Hsubmit.
  destruct (client_submit_job _ _) as [[response|e] r]; [|by rewrite Hsubmit; constructor].
  destruct (response !! "jobId") as [jid|]; rewrite Hsubmit; [|by constructor].
  assert (Hnone : omap call_job_id
                    (submit_prologue (self s) ++ submit_success_records jid response) = [])
    by done.
  destruct (wait_for_completion _);
    [|unfold events_of; cbn [snd]; rewrite Hnone; constructor].
  pose proof (monitor_job_call_job_ids {| self := with_job_id jid (self s); remote := r |})
    as Hids. cbn [self job_id with_job_id] in Hids.
  destruct (monitor_job _) as [[[[]|e] s2] evs2];
    unfold events_of in *; cbn [snd] in *;
    rewrite omap_app, Hnone; cbn [app];
    (eapply Forall_impl; [exact Hids|]); by intros ? ->.
Qed.

(** ** Monitor *)

(** X10.  The guard of [monitor_job] rejects every [job_id] that is false in a
    condition, the empty string as well as [None], before any call. *)
Theorem monitor_job_rejects_false_job_id s :
  truthy (job_id (self s)) = false →
  monitor_job s = (Raised job_id_not_found, s, []).
Proof.
  intros Hfalse. rewrite monitor_job_paths. cbv zeta. by rewrite Hfalse.
Qed.

(** X11.  The lookup is best effort for [KeyError] only: any other exception of
    its describe call ends [monitor_job] at once, unwrapped, with no warning
    and before any wait. *)
Theorem monitor_job_lookup_error_escalates s e r1 :
  truthy (job_id (self s)) = true →
  hook_get_job_description (job_id (self s)) (remote s) = (Raised e, r1) →
  is_KeyError e = false →
  monitor_job s =
    (Raised e, {| self := self s; remote := r1 |}, [HookGetJobDescription (job_id (self s))]).
Proof.
  intros Hset Hcall Hother. rewrite monitor_job_paths. cbv zeta.
  rewrite Hset, Hcall, Hother. unfold lookup_records. by rewrite Hother.
Qed.

(** X12.  A [KeyError] raised by the describe call itself is taken for missing
    fields: the warning is logged and [monitor_job] goes on with its wait. *)
Theorem monitor_job_lookup_swallows_KeyError s key r1 :
  let op := self s in
  let jid := job_id op in
  let rest := wait_and_check op jid {| self := op; remote := r1 |} in
  truthy jid = true →
  hook_get_job_description jid (remote s) = (Raised (KeyError key), r1) →
  monitor_job s =
    (outcome_of rest, state_of rest,
     HookGetJobDescription jid :: arns_missing_record jid :: events_of rest).
Proof.
  intros op jid rest Hset Hcall. rewrite monitor_job_paths. cbv zeta.
  fold op jid. rewrite Hset, Hcall. cbn [is_KeyError].
  change (wait_and_check op jid _) with rest.
  clearbody rest. by destruct rest as [[o s2] evs2].
Qed.

(** X13.  When the configured wait raises, [monitor_job] raises the same
    exception and stops: no CloudWatch lookup, no final check. *)
Theorem monitor_job_wait_error_ends_monitoring s described r1 e r2 :
  let op := self s in
  let jid := job_id op in
  truthy jid = true →
  hook_get_job_description jid (remote s) = (described, r1) →
  lookup_passes described = true →
  active_wait op jid r1 = (Raised e, r2) →
  monitor_job s =
    (Raised e, {| self := op; remote := r2 |},
     (HookGetJobDescription jid :: lookup_records jid described) ++ [wait_call op jid]).
Proof.
  intros op jid Hset Hcall Hpasses Hwait. rewrite monitor_job_paths. cbv zeta.
  fold op jid. rewrite Hset, Hcall, wait_and_check_paths; cbn [self remote].
  rewrite Hwait. destruct described as [job|e']; [done|].
  cbn in Hpasses. by rewrite Hpasses.
Qed.

(** X14.  When the CloudWatch lookup after the wait raises, [monitor_job] raises
    the same exception and never makes the final check: the job is not
    classified. *)
Theorem monitor_job_awslogs_error_skips_check s described r1 r2 e r3 :
  let op := self s in
  let jid := job_id op in
  truthy jid = true →
  hook_get_job_description jid (remote s) = (described, r1) →
  lookup_passes described = true →
  active_wait op jid r1 = (Returned (), r2) →
  hook_get_job_awslogs_info jid r2 = (Raised e, r3) →
  monitor_job s =
    (Raised e, {| self := op; remote := r3 |},
     (HookGetJobDescription jid :: lookup_records jid described)
     ++ [wait_call op jid; HookGetJobAwslogsInfo jid])
  ∧ count is_final_check (events_of (monitor_job s)) = 0.
Proof.
  intros op jid Hset Hcall Hpasses Hwait Hlogs.
  assert (Hrun : monitor_job s =
    (Raised e, {| self := op; remote := r3 |},
     (HookGetJobDescription jid :: lookup_records jid described)
     ++ [wait_call op jid; HookGetJobAwslogsInfo jid])).
  { rewrite monitor_job_paths. cbv zeta.
    fold op jid. rewrite Hset, Hcall, wait_and_check_paths; cbn [self remote].
    rewrite Hwait, Hlogs. destruct described as [job|e']; [done|].
    cbn in Hpasses. by rewrite Hpasses. }
  split; [done|]. rewrite Hrun. unfold events_of; cbn [snd].
  rewrite count_app. unfold lookup_records, wait_call.
  repeat case_match; done.
Qed.

(** X20.  When the CloudWatch lookup returns a non-empty dict that repeats
    one of the keywords [monitor_job] passes to [CloudWatchEventsLink.persist]
    itself, unpacking it into the call raises a [TypeError]: the details
    record is logged, nothing is persisted and no final check is made. *)
Theorem monitor_job_awslogs_collision_skips_check s described r1 r2 d r3 :
  let op := self s in
  let jid := job_id op in
  truthy jid = true →
  hook_get_job_description jid (remote s) = (described, r1) →
  lookup_passes described = true →
  active_wait op jid r1 = (Returned (), r2) →
  hook_get_job_awslogs_info jid r2 = (Returned (Some d), r3) →
  truthy (VDict d) = true →
  splat_collides d = true →
  (∃ msg, outcome_of (monitor_job s) = Raised (TypeError msg))
  ∧ state_of (monitor_job s) = {| self := op; remote := r3 |}
  ∧ events_of (monitor_job s) =
      (HookGetJobDescription jid :: lookup_records jid described)
      ++ [ wait_call op jid; HookGetJobAwslogsInfo jid;
           Log INFO "AWS Batch job (%s) CloudWatch Events details found: %s" [jid; VDict d] ]
  ∧ count (persists CloudWatchEventsLink) (events_of (monitor_job s)) = 0
  ∧ count is_final_check (events_of (monitor_job s)) = 0.
Proof.
  intros op jid Hset Hcall Hpasses Hwait Hlogs Htrue Hcollides.
  assert (Hrun : monitor_job s =
    (Raised (TypeError "persist() got multiple values for keyword argument"),
     {| self := op; remote := r3 |},
     (HookGetJobDescription jid :: lookup_records jid described)
     ++ [ wait_call op jid; HookGetJobAwslogsInfo jid;
          Log INFO "AWS Batch job (%s) CloudWatch Events details found: %s" [jid; VDict d] ])).
  { rewrite monitor_job_paths. cbv zeta.
    fold op jid. rewrite Hset, Hcall, wait_and_check_paths; cbn [self remote].
    rewrite Hwait, Hlogs. unfold awslogs_outcome, awslogs_rejected, awslogs_records.
    rewrite Htrue, Hcollides. cbn [andb].
    destruct described as [job|e']; [done|].
    cbn in Hpasses. by rewrite Hpasses. }
  rewrite Hrun. unfold outcome_of, state_of, events_of; cbn [fst snd].
  split; [by eexists|]. split; [done|]. split; [done|].
  rewrite !count_app. unfold lookup_records, wait_call.
  repeat case_match; done.
Qed.

(** X15.  The success record is logged exactly when [monitor_job] returns: once
    if it returns, never if it raises. *)
Theorem monitor_job_logs_success_iff_returns s :
  count is_success_record (events_of (monitor_job s)) =
    match outcome_of (monitor_job s) with Returned _ => 1 | Raised _ => 0 end.
Proof. split_paths; reflexivity. Qed.


(** X17.  Neither [monitor_job] nor [on_kill] assigns any attribute of the
    operator; in particular [on_kill] leaves [job_id] in place. *)
Theorem monitor_job_and_on_kill_keep_operator s :
  self (state_of (monitor_job s)) = self s
  ∧ self (state_of (on_kill s)) = self s.
Proof.
  split; [apply monitor_job_self|].
  run_monad. unfold state_of.
  by destruct (client_terminate_job _ _ _) as [[?|?] ?].
Qed.

End Properties.

(** ** The compute environment operator *)

Section ComputeEnvironmentProperties.

Context `{ComputeEnvironment.Client Remote}.

(** X18.  A run of [execute] makes exactly one create call, through the hook and
    with the trimmed arguments; it raises what that call raises, unwrapped,
    and logs its success record exactly when the call returns.  No attribute
    is assigned; only the hook is cached. *)
Theorem compute_environment_execute_calls_once
    (op : ComputeEnvironment.BatchCreateComputeEnvironmentOperator) (r : Remote) :
  let run := ComputeEnvironment.execute op r in
  let h := (ComputeEnvironment.hook op).1 in
  let kw := ComputeEnvironment.trim_none_values (ComputeEnvironment.kwargs op) in
  ComputeEnvironment.outcome_of run =
    match (ComputeEnvironment.client_create_compute_environment h kw r).1 with
    | Returned _ => Returned ()
    | Raised e => Raised e
    end
  ∧ filter (λ ev, ComputeEnvironment.is_create_call ev = true)
           (ComputeEnvironment.events_of run)
    = [ComputeEnvironment.ClientCreateComputeEnvironment h kw]
  ∧ length (filter (λ ev, ComputeEnvironment.is_success_record ev = true)
                   (ComputeEnvironment.events_of run))
    = match ComputeEnvironment.outcome_of run with Returned _ => 1 | Raised _ => 0 end
  ∧ ComputeEnvironment.operator_of run = ComputeEnvironment.with_hook_cache h op.
Proof.
  unfold ComputeEnvironment.execute, ComputeEnvironment.hook.
  destruct (ComputeEnvironment.hook_cache op) as [h|] eqn:Hcache; cbn [fst];
    destruct (ComputeEnvironment.client_create_compute_environment _ _ _) as [[?|e] r1];
    repeat split; try reflexivity;
    destruct op; cbn in Hcache; by subst.
Qed.

(** X19.  The hook is built once.  The first run builds it from the four
    connection attributes as they are then (unless one is cached already)
    and caches it; a later run goes through the very same hook, whatever was
    assigned to those attributes in between. *)
Theorem compute_environment_hook_is_built_once
    (op : ComputeEnvironment.BatchCreateComputeEnvironmentOperator) (r r' : Remote)
    (retries status : option Z) (conn region : option string) :
  let first := ComputeEnvironment.execute op r in
  let op1 := ComputeEnvironment.operator_of first in
  let again :=
    ComputeEnvironment.execute (ComputeEnvironment.reconfigure retries status conn region op1) r' in
  ComputeEnvironment.hook_used (ComputeEnvironment.events_of first)
    = Some (default (ComputeEnvironment.new_hook op) (ComputeEnvironment.hook_cache op))
  ∧ ComputeEnvironment.hook_cache op1
    = ComputeEnvironment.hook_used (ComputeEnvironment.events_of first)
  ∧ ComputeEnvironment.hook_used (ComputeEnvironment.events_of again)
    = ComputeEnvironment.hook_used (ComputeEnvironment.events_of first).
Proof.
  unfold ComputeEnvironment.execute, ComputeEnvironment.hook.
  destruct (ComputeEnvironment.hook_cache op) as [h|] eqn:Hcache;
    destruct (ComputeEnvironment.client_create_compute_environment _ _ r) as [[?|e] r1];
    cbn; rewrite ?Hcache;
    destruct (ComputeEnvironment.client_create_compute_environment _ _ r') as [[?|e'] r1'];
    done.
Qed.

End ComputeEnvironmentProperties.

(** * The properties at work on the scripted remote side *)

(** A job that is submitted, polled and found SUCCEEDED: [execute] returns
    its identifier. *)
Example execute_returns_job_id :
  outcome_of
    (execute {| self := Mock.fresh None true;
                remote := {| Mock.submit_answers := [Returned Mock.job_accepted];
                             Mock.terminate_answers := [];
                             Mock.describe_answers :=
                               [Returned (Mock.description "SUBMITTED");
                                Returned (Mock.description "SUCCEEDED")];
                             Mock.poll_answers := [Returned ()];
                             Mock.awslogs_answers := [Returned None];
                             Mock.waiter_answers := [] |} |})
  = Returned (VStr "j-1").
Proof. reflexivity. Qed.

(** With a waiters object configured the poller's answers are not touched. *)
Example monitor_job_with_waiters :
  let run := monitor_job {| self := Mock.submitted (Some true);
                            remote := Mock.describes
                                        [Returned (Mock.description "RUNNING");
                                         Returned (Mock.description "SUCCEEDED")] |} in
  outcome_of run = Returned ()
  ∧ Mock.poll_answers (remote (state_of run)) = [Returned ()]
  ∧ Mock.waiter_answers (remote (state_of run)) = [].
Proof. repeat split. Qed.

(** Without [wait_for_completion] the extra links are returned. *)
Example operator_extra_links_not_waiting :
  operator_extra_links (Mock.fresh None false)
  = Returned [BatchJobDetailsLink; CloudWatchEventsLink].
Proof. reflexivity. Qed.

Lemma monitor_job_fails_unless_succeeded_witness :
  let s := Mock.job_fails in
  let op := self s in
  let jid := VStr "j-1" in
  let job := Mock.failed_description in
  let r1 := Mock.describes [Returned job] in
  let r2 := Mock.polled [Returned job] [Returned None] in
  let r3 := Mock.polled [Returned job] [] in
  let r4 := Mock.polled [] [] in
  truthy jid = true
  ∧ hook_get_job_description jid (remote s) = (Returned (Mock.description "RUNNING"), r1)
  ∧ lookup_passes (Returned (Mock.description "RUNNING")) = true
  ∧ active_wait op jid r1 = (Returned (), r2)
  ∧ hook_get_job_awslogs_info jid r2 = (Returned None, r3)
  ∧ awslogs_rejected None = false
  ∧ hook_get_job_description jid r3 = (Returned job, r4)
  ∧ is_succeeded (job !! "status") = false
  ∧ monitor_job s =
      (Raised (JobFailedError (Some (VStr "FAILED")) job),
       {| self := op; remote := r4 |},
       (HookGetJobDescription jid
          :: lookup_records jid (Returned (Mock.description "RUNNING")))
       ++ [HookWaitForJob jid]
       ++ [HookGetJobAwslogsInfo jid]
       ++ [HookCheckJobSuccess jid]).
Proof.
  intros s op jid job r1 r2 r3 r4.
  repeat (split; [reflexivity|]).
  apply (monitor_job_fails_unless_succeeded s
           (Returned (Mock.description "RUNNING")) r1 r2 None r3 job r4);
    reflexivity.
Defined.

Lemma monitor_job_requires_job_id_witness :
  let s := Mock.submit_fails_twice in
  job_id (self s) = VNone
  ∧ monitor_job s = (Raised job_id_not_found, s, [])
  ∧ match submit_job s with
    | (Raised _, s1, _) => monitor_job s1 = (Raised job_id_not_found, s1, [])
    | (Returned _, _, _) => True
    end.
Proof.
  intros s. split; [reflexivity|].
  apply (monitor_job_requires_job_id s). reflexivity.
Defined.

Lemma monitor_job_lookup_without_arns_witness :
  let s := Mock.job_without_arns in
  let op := self s in
  let jid := VStr "j-1" in
  let job := Mock.bare_description in
  let r1 := Mock.describes [Returned (Mock.description "SUCCEEDED")] in
  let rest := wait_and_check op jid {| self := op; remote := r1 |} in
  truthy jid = true
  ∧ hook_get_job_description jid (remote s) = (Returned job, r1)
  ∧ (job !! "jobDefinition" = None ∨ job !! "jobQueue" = None)
  ∧ monitor_job s =
      (outcome_of rest, state_of rest,
       HookGetJobDescription jid :: arns_missing_record jid :: events_of rest)
  ∧ ∃ evs, events_of rest = HookWaitForJob jid :: evs.
Proof.
  intros s op jid job r1 rest.
  split; [reflexivity|]. split; [reflexivity|]. split; [by left|].
  apply (monitor_job_lookup_without_arns s job r1); [reflexivity | reflexivity | by left].
Defined.

Lemma submit_job_failure_is_wrapped_once_witness :
  let s := Mock.submit_fails_twice in
  let r1 := Mock.submits [Raised Mock.unreachable] in
  let r2 := Mock.submits [] in
  client_submit_job (submit_request (self s)) (remote s) = (Raised Mock.throttled, r1)
  ∧ submit_job s =
      (Raised (AirflowException (Cause Mock.throttled)),
       {| self := self s; remote := r1 |},
       submit_prologue (self s) ++ [submit_failure_record (self s)])
  ∧ count is_submit_call (events_of (submit_job s)) = 1
  ∧ count is_submit_call (events_of (submit_job (state_of (submit_job s)))) = 1
  ∧ submit_job (state_of (submit_job s)) =
      (Raised (AirflowException (Cause Mock.unreachable)),
       {| self := self s; remote := r2 |},
       submit_prologue (self s) ++ [submit_failure_record (self s)]).
Proof.
  intros s r1 r2.
  split; [reflexivity|].
  exact (submit_job_failure_is_wrapped_once s Mock.throttled r1 eq_refl).
Defined.

Lemma submit_job_response_without_jobId_witness :
  let s := Mock.submit_without_jobId in
  let response : dict := {[ "jobName" := VStr "job" ]} in
  client_submit_job (submit_request (self s)) (remote s) = (Returned response, Mock.submits [])
  ∧ response !! "jobId" = None
  ∧ submit_job s = (Raised (KeyError "jobId"),
                    {| self := self s; remote := Mock.submits [] |},
                    submit_prologue (self s))
  ∧ job_id (self (state_of (submit_job s))) = job_id (self s).
Proof.
  intros s response.
  split; [reflexivity|]. split; [reflexivity|].
  apply (submit_job_response_without_jobId s response (Mock.submits [])); reflexivity.
Defined.

Lemma operator_extra_links_raises_when_waiting_witness :
  wait_for_completion (Mock.fresh None true) = true
  ∧ ∃ msg, operator_extra_links (Mock.fresh None true) = Raised (TypeError msg).
Proof.
  split; [reflexivity|].
  apply (operator_extra_links_raises_when_waiting (Mock.fresh None true)). reflexivity.
Defined.

(** C1 as stated fails: the poller returns, the CloudWatch lookup that
    follows is throttled, and [monitor_job] ends there without its final
    check. *)
Lemma monitor_job_skips_check_counterexample :
  ¬ checks_after_every_wait Mock.awslogs_fails.
Proof.
  intros Hclaim.
  specialize (Hclaim (Returned (Mock.description "RUNNING"))
                (snd (hook_get_job_description (VStr "j-1") (remote Mock.awslogs_fails)))
                (snd (hook_wait_for_job (VStr "j-1")
                        (snd (hook_get_job_description (VStr "j-1")
                                (remote Mock.awslogs_fails)))))
                eq_refl eq_refl eq_refl eq_refl).
  vm_compute in Hclaim. discriminate.
Qed.


(** C5 as stated fails: killed with no job identifier, [on_kill] still makes
    its terminate call, and what comes back is the client's exception. *)
Lemma on_kill_without_job_id_counterexample :
  ¬ cancel_checks_job_id Mock.killed_before_submit.
Proof.
  intros Hclaim. destruct (Hclaim eq_refl) as [_ Hcount]. vm_compute in Hcount. discriminate.
Qed.

(** ** Further properties at work *)

Lemma operator_extra_links_returned_witness :
  operator_extra_links Mock.array_job = Returned [BatchJobDetailsLink]
  ∧ wait_for_completion Mock.array_job = false
  ∧ (array_properties Mock.array_job = ∅
       ∧ [BatchJobDetailsLink] = [BatchJobDetailsLink; CloudWatchEventsLink]
     ∨ array_properties Mock.array_job ≠ ∅
       ∧ [BatchJobDetailsLink] = [BatchJobDetailsLink]).
Proof.
  split; [reflexivity|].
  apply (operator_extra_links_returned Mock.array_job [BatchJobDetailsLink]). reflexivity.
Defined.

Lemma submit_job_returned_witness :
  let s := Mock.submit_accepted true in
  outcome_of (submit_job s) = Returned ()
  ∧ ∃ response r jid,
      client_submit_job (submit_request (self s)) (remote s) = (Returned response, r)
      ∧ response !! "jobId" = Some jid
      ∧ submit_job s =
          (Returned (), {| self := with_job_id jid (self s); remote := r |},
           submit_prologue (self s) ++ submit_success_records jid response)
      ∧ count is_error_record (events_of (submit_job s)) = 0.
Proof.
  intros s. split; [reflexivity|].
  apply (submit_job_returned s). reflexivity.
Defined.

Lemma on_kill_after_submit_terminates_that_job_witness :
  let s := Mock.job_succeeds false in
  submitted_job_id s = Some (VStr "j-1")
  ∧ head (events_of (on_kill (state_of (submit_job s))))
    = Some (ClientTerminateJob (VStr "j-1") "Task killed by the user").
Proof.
  intros s. split; [reflexivity|].
  apply (on_kill_after_submit_terminates_that_job s (VStr "j-1")). reflexivity.
Defined.

Lemma execute_returns_submitted_job_id_witness :
  let s := Mock.job_succeeds true in
  outcome_of (execute s) = Returned (VStr "j-1")
  ∧ submitted_job_id s = Some (VStr "j-1")
  ∧ job_id (self (state_of (execute s))) = VStr "j-1".
Proof.
  intros s. split; [reflexivity|].
  apply (execute_returns_submitted_job_id s (VStr "j-1")). reflexivity.
Defined.

Lemma execute_with_false_jobId_witness :
  let s := Mock.submit_returns_empty_jobId true in
  client_submit_job (submit_request (self s)) (remote s)
    = (Returned Mock.empty_jobId, Mock.submits [])
  ∧ Mock.empty_jobId !! "jobId" = Some (VStr "")
  ∧ truthy (VStr "") = false
  ∧ execute s =
      (Raised job_id_not_found,
       {| self := with_job_id (VStr "") (self s); remote := Mock.submits [] |},
       submit_prologue (self s) ++ submit_success_records (VStr "") Mock.empty_jobId).
Proof.
  intros s. repeat (split; [reflexivity|]).
  apply (execute_with_false_jobId s Mock.empty_jobId (Mock.submits []) (VStr ""));
    reflexivity.
Defined.

Lemma monitor_job_rejects_false_job_id_witness :
  let s := Mock.empty_job_id in
  truthy (job_id (self s)) = false
  ∧ monitor_job s = (Raised job_id_not_found, s, []).
Proof.
  intros s. split; [reflexivity|].
  apply (monitor_job_rejects_false_job_id s). reflexivity.
Defined.

Lemma monitor_job_lookup_error_escalates_witness :
  let s := Mock.lookup_throttled in
  truthy (job_id (self s)) = true
  ∧ hook_get_job_description (job_id (self s)) (remote s)
    = (Raised Mock.throttled, Mock.describes [])
  ∧ is_KeyError Mock.throttled = false
  ∧ monitor_job s =
      (Raised Mock.throttled, {| self := self s; remote := Mock.describes [] |},
       [HookGetJobDescription (job_id (self s))]).
Proof.
  intros s. repeat (split; [reflexivity|]).
  apply (monitor_job_lookup_error_escalates s Mock.throttled (Mock.describes []));
    reflexivity.
Defined.

Lemma monitor_job_lookup_swallows_KeyError_witness :
  let s := Mock.lookup_raises_KeyError in
  let op := self s in
  let jid := VStr "j-1" in
  let r1 := Mock.describes [Returned (Mock.description "SUCCEEDED")] in
  let rest := wait_and_check op jid {| self := op; remote := r1 |} in
  truthy jid = true
  ∧ hook_get_job_description jid (remote s) = (Raised (KeyError "jobs"), r1)
  ∧ monitor_job s =
      (outcome_of rest, state_of rest,
       HookGetJobDescription jid :: arns_missing_record jid :: events_of rest).
Proof.
  intros s op jid r1 rest. repeat (split; [reflexivity|]).
  apply (monitor_job_lookup_swallows_KeyError s "jobs" r1); reflexivity.
Defined.

Lemma monitor_job_wait_error_ends_monitoring_witness :
  let s := Mock.wait_fails in
  let op := self s in
  let jid := VStr "j-1" in
  let described := Returned (Mock.description "RUNNING") in
  let r1 := {| Mock.submit_answers := []; Mock.terminate_answers := [];
               Mock.describe_answers := []; Mock.poll_answers := [];
               Mock.awslogs_answers := [Returned None];
               Mock.waiter_answers := [Raised Mock.waiter_timeout] |} in
  let r2 := {| Mock.submit_answers := []; Mock.terminate_answers := [];
               Mock.describe_answers := []; Mock.poll_answers := [];
               Mock.awslogs_answers := [Returned None];
               Mock.waiter_answers := [] |} in
  truthy jid = true
  ∧ hook_get_job_description jid (remote s) = (described, r1)
  ∧ lookup_passes described = true
  ∧ active_wait op jid r1 = (Raised Mock.waiter_timeout, r2)
  ∧ monitor_job s =
      (Raised Mock.waiter_timeout, {| self := op; remote := r2 |},
       (HookGetJobDescription jid :: lookup_records jid described)
       ++ [WaitersWaitForJob jid]).
Proof.
  intros s op jid described r1 r2. repeat (split; [reflexivity|]).
  exact (monitor_job_wait_error_ends_monitoring s described r1 Mock.waiter_timeout r2
           eq_refl eq_refl eq_refl eq_refl).
Defined.

Lemma monitor_job_awslogs_error_skips_check_witness :
  let s := Mock.awslogs_fails in
  let op := self s in
  let jid := VStr "j-1" in
  let described := Returned (Mock.description "RUNNING") in
  let left_over (polls : list (outcome unit)) (lookups : list (outcome (option dict))) :=
    {| Mock.submit_answers := []; Mock.terminate_answers := [];
       Mock.describe_answers := [Returned (Mock.description "SUCCEEDED")];
       Mock.poll_answers := polls; Mock.awslogs_answers := lookups;
       Mock.waiter_answers := [] |} in
  let r1 := left_over [Returned ()] [Raised Mock.throttled] in
  let r2 := left_over [] [Raised Mock.throttled] in
  let r3 := left_over [] [] in
  truthy jid = true
  ∧ hook_get_job_description jid (remote s) = (described, r1)
  ∧ lookup_passes described = true
  ∧ active_wait op jid r1 = (Returned (), r2)
  ∧ hook_get_job_awslogs_info jid r2 = (Raised Mock.throttled, r3)
  ∧ monitor_job s =
      (Raised Mock.throttled, {| self := op; remote := r3 |},
       (HookGetJobDescription jid :: lookup_records jid described)
       ++ [HookWaitForJob jid; HookGetJobAwslogsInfo jid])
  ∧ count is_final_check (events_of (monitor_job s)) = 0.
Proof.
  intros s op jid described left_over r1 r2 r3. repeat (split; [reflexivity|]).
  apply (monitor_job_awslogs_error_skips_check s described r1 r2 Mock.throttled r3);
    reflexivity.
Defined.

(** A compute environment created twice: the second run is told to retry
    less and to use another region, and still goes through the first hook. *)
Example compute_environment_second_run :
  let first := ComputeEnvironment.execute ComputeEnvironment.managed () in
  let changed :=
    ComputeEnvironment.reconfigure (Some 1%Z) None None (Some "us-east-1")
      (ComputeEnvironment.operator_of first) in
  ComputeEnvironment.hook_used
    (ComputeEnvironment.events_of (ComputeEnvironment.execute changed ()))
  = Some (Build_hook_config (Some 5%Z) None None (Some "eu-west-1")).
Proof. reflexivity. Qed.

Lemma execute_keeps_job_id_when_monitoring_fails_witness :
  let s := {| self := Mock.fresh None true;
              remote := {| Mock.submit_answers := [Returned Mock.job_accepted];
                           Mock.terminate_answers := [];
                           Mock.describe_answers := [Raised Mock.throttled];
                           Mock.poll_answers := []; Mock.awslogs_answers := [];
                           Mock.waiter_answers := [] |} |} in
  submitted_job_id s = Some (VStr "j-1")
  ∧ outcome_of (execute s) = Raised Mock.throttled
  ∧ job_id (self (state_of (execute s))) = VStr "j-1".
Proof.
  intros s. repeat (split; [reflexivity|]).
  apply (execute_keeps_job_id_when_monitoring_fails s (VStr "j-1")). reflexivity.
Defined.

Lemma monitor_job_awslogs_collision_skips_check_witness :
  let s := Mock.awslogs_collide in
  let op := self s in
  let jid := VStr "j-1" in
  let d := Mock.colliding_awslogs in
  let described := Returned (Mock.description "RUNNING") in
  let left_over (polls : list (outcome unit)) (lookups : list (outcome (option dict))) :=
    {| Mock.submit_answers := []; Mock.terminate_answers := [];
       Mock.describe_answers := [Returned (Mock.description "SUCCEEDED")];
       Mock.poll_answers := polls; Mock.awslogs_answers := lookups;
       Mock.waiter_answers := [] |} in
  let r1 := left_over [Returned ()] [Returned (Some d)] in
  let r2 := left_over [] [Returned (Some d)] in
  let r3 := left_over [] [] in
  truthy jid = true
  ∧ hook_get_job_description jid (remote s) = (described, r1)
  ∧ lookup_passes described = true
  ∧ active_wait op jid r1 = (Returned (), r2)
  ∧ hook_get_job_awslogs_info jid r2 = (Returned (Some d), r3)
  ∧ truthy (VDict d) = true
  ∧ splat_collides d = true
  ∧ (∃ msg, outcome_of (monitor_job s) = Raised (TypeError msg))
  ∧ state_of (monitor_job s) = {| self := op; remote := r3 |}
  ∧ events_of (monitor_job s) =
      (HookGetJobDescription jid :: lookup_records jid described)
      ++ [ HookWaitForJob jid; HookGetJobAwslogsInfo jid;
           Log INFO "AWS Batch job (%s) CloudWatch Events details found: %s" [jid; VDict d] ]
  ∧ count (persists CloudWatchEventsLink) (events_of (monitor_job s)) = 0
  ∧ count is_final_check (events_of (monitor_job s)) = 0.
Proof.
  intros s op jid d described left_over r1 r2 r3. repeat (split; [reflexivity|]).
  exact (monitor_job_awslogs_collision_skips_check s described r1 r2 d r3
           eq_refl eq_refl eq_refl eq_refl eq_refl eq_refl eq_refl).
Defined.
